(** * utils/misc.py of anls-star-metric: provider glue for document
      information extraction, embedded and verified.

    The module wires an OCR scanner and four hosted chat models together.
    Its functions are embedded here under their own names, with Python
    strings as [string], floats as binary64 numbers, exceptions as values
    of [exn], the module global [invoke_semaphore] and the file system as
    fields of an explicit interpreter state, and every awaited
    collaborator call recorded in a trace of events. *)

From Stdlib Require Import String Ascii List ZArith Lia Bool DecimalString SpecFloat.
From stdpp Require Import base option strings gmap.

Import ListNotations.
Local Open Scope string_scope.

(** ** Python runtime pieces used by the module *)

Module Py.

(** The one-character string written backslash-n in the source. *)
Definition nl : string := String (ascii_of_nat 10) EmptyString.

(** [s.startswith(p)]. *)
Definition startswith (s p : string) : bool := String.prefix p s.

(** [sep.join(l)]. *)
Definition join (sep : string) (l : list string) : string :=
  String.concat sep l.

(** [str(n)] for a non-negative int. *)
Definition str (n : nat) : string := NilZero.string_of_uint (Nat.to_uint n).

(** [list(enumerate(l))], counting from [start]. *)
Fixpoint enumerate_from {A} (start : nat) (l : list A) : list (nat * A) :=
  match l with
  | [] => []
  | x :: l' => (start, x) :: enumerate_from (S start) l'
  end.

Definition enumerate {A} (l : list A) : list (nat * A) := enumerate_from 0 l.

(** Every [raise] of the module raises the builtin [Exception] with a
    message; collaborators raise whatever they raise, which is carried
    here as an [Exception] value too. *)
Inductive exn : Type := Exception (msg : string).

Global Instance exn_eq_dec : EqDecision exn.
Proof. solve_decision. Defined.

(** A call either returns or raises. *)
Inductive result (A : Type) : Type :=
| Ok (a : A)
| Raise (e : exn).
Global Arguments Ok {A} a.
Global Arguments Raise {A} e.

Definition bind {A B} (r : result A) (k : A -> result B) : result B :=
  match r with
  | Ok a => k a
  | Raise e => Raise e
  end.

End Py.
Import Py.

(** ** Python floats

    A Python float is an IEEE 754 binary64 number; arithmetic is the
    Standard Library's executable specification at precision 53.
    [round] and [repr] follow CPython: [round(x, n)] rounds the exact
    value of [x] to [n] decimals, ties to even, and returns the double
    nearest to that decimal; [repr(x)] prints the shortest decimal that
    reads back as [x]. *)

Module PyFloat.
Local Open Scope Z_scope.

Definition prec : Z := 53.
Definition emax : Z := 1024.

Definition float : Type := spec_float.

Definition zero : float := S754_zero false.
Definition fadd : float -> float -> float := SFadd prec emax.
Definition fdiv : float -> float -> float := SFdiv prec emax.

(** The double nearest to [p / q], ties to even, for [0 <= p] and [0 < q]. *)
Definition nearest (p q : Z) : float :=
  if p =? 0 then zero else
  let k := Z.max 0 (64 + Z.log2 q - Z.log2 p) in
  let m := (p * 2 ^ k) / q in
  let sticky := if (p * 2 ^ k) mod q =? 0 then 0 else 1 in
  binary_normalize prec emax (2 * m + sticky) (- k - 1) false.

(** [float(n)] for an int. *)
Definition of_int (n : Z) : float :=
  if 0 <=? n then nearest n 1 else SFopp (nearest (- n) 1).

(** The float a decimal literal [digits * 10^exp10] denotes. *)
Definition of_decimal (digits exp10 : Z) : float :=
  if 0 <=? exp10 then nearest (digits * 10 ^ exp10) 1
  else nearest digits (10 ^ (- exp10)).

(** The integer nearest to [a / b], ties to even, for [0 < b]. *)
Definition round_half_even (a b : Z) : Z :=
  let q := a / b in
  match 2 * (a mod b) ?= b with
  | Lt => q
  | Gt => q + 1
  | Eq => if Z.even q then q else q + 1
  end.

(** [round(x, ndigits)] *)
Definition round (x : float) (ndigits : nat) : float :=
  match x with
  | S754_finite s m e =>
      let scale := 10 ^ Z.of_nat ndigits in
      let n :=
        if 0 <=? e then Zpos m * 2 ^ e * scale
        else round_half_even (Zpos m * scale) (2 ^ (- e)) in
      let r := nearest n scale in
      if s then SFopp r else r
  | _ => x
  end.


(** The decimal digits of a non-negative integer. *)
Definition digits_of (n : Z) : string :=
  NilZero.string_of_uint (N.to_uint (Z.to_N n)).

Fixpoint zeros (n : nat) : string :=
  match n with
  | O => EmptyString
  | S n' => String "0" (zeros n')
  end.

(** The rounding interval of the positive double [m * 2^e]: the reals
    between the midpoints to its two neighbours, as fractions over a
    common denominator, with the value itself. The lower neighbour of a
    power of two is half as far away. *)
Definition interval (m : positive) (e : Z) : Z * Z * Z * Z :=
  let u := 2 ^ Z.max 0 (e - 2) in
  let den := 2 ^ Z.max 0 (2 - e) in
  let v := 4 * Zpos m * u in
  let hi := (4 * Zpos m + 2) * u in
  let lo :=
    if (Zpos m =? 2 ^ (prec - 1)) && (3 - emax - prec <? e)
    then (4 * Zpos m - 1) * u
    else (4 * Zpos m - 2) * u in
  (lo, v, hi, den).

(** Whether [c * 10^k] reads back as the double: it lies between the
    midpoints, which themselves read back as it when its mantissa is
    even. *)
Definition reads_back (m : positive) (e : Z) (c k : Z) : bool :=
  let '(lo, v, hi, den) := interval m e in
  let x := c * 10 ^ Z.max 0 k * den in
  let s := 10 ^ Z.max 0 (- k) in
  let even := Z.even (Zpos m) in
  (0 <? c) &&
  (if even then lo * s <=? x else lo * s <? x) &&
  (if even then x <=? hi * s else x <? hi * s).

(** The candidates with last digit at position [k]: the multiples of
    [10^k] just below and just above the value; the nearer one that reads
    back, the even one on a tie. *)
Definition candidate (m : positive) (e : Z) (k : Z) : option Z :=
  let '(lo, v, hi, den) := interval m e in
  let s := 10 ^ Z.max 0 (- k) in
  let d := 10 ^ Z.max 0 k * den in
  let c := (v * s) / d in
  let r := (v * s) mod d in
  let below := reads_back m e c k in
  let above := reads_back m e (c + 1) k in
  match below, above with
  | false, false => None
  | true, false => Some c
  | false, true => Some (c + 1)
  | true, true =>
      match 2 * r ?= d with
      | Lt => Some c
      | Gt => Some (c + 1)
      | Eq => Some (if Z.even c then c else c + 1)
      end
  end.

(** The shortest digit string that reads back as the double: the search
    goes down from a position above the leading digit ([10^top] exceeds
    the upper midpoint, as [log10 2 < 0.30103]) and stops at the first
    position with a candidate. *)
Fixpoint shortest_from (fuel : nat) (m : positive) (e : Z) (k : Z)
  : Z * Z :=
  match candidate m e k with
  | Some c => (c, k)
  | None =>
      match fuel with
      | O => (0, 0)
      | S fuel' => shortest_from fuel' m e (k - 1)
      end
  end.

Definition shortest (m : positive) (e : Z) : Z * Z :=
  let '(lo, v, hi, den) := interval m e in
  let bits := Z.log2 (hi / den + 1) + 1 in
  let top := bits * 30103 / 100000 + 1 in
  shortest_from (Z.to_nat (top + 400)) m e top.

(** [repr] of the digits [c] with the last one at position [k]: plain
    notation while the decimal point falls within 16 places after and 4
    places before the leading digit, exponent notation otherwise. *)
Definition format_short (c k : Z) : string :=
  let ds := digits_of c in
  let n := Z.of_nat (String.length ds) in
  let decpt := k + n in
  if (decpt <=? -4) || (16 <? decpt) then
    let ex := decpt - 1 in
    let mant :=
      match ds with
      | String d EmptyString => ds
      | String d rest => String d ("." +:+ rest)
      | EmptyString => ds
      end in
    let exs := digits_of (Z.abs ex) in
    let exs := if Z.abs ex <? 10 then "0" +:+ exs else exs in
    mant +:+ "e" +:+ (if ex <? 0 then "-" else "+") +:+ exs
  else if decpt <=? 0 then
    "0." +:+ zeros (Z.to_nat (- decpt)) +:+ ds
  else if n <=? decpt then
    ds +:+ zeros (Z.to_nat (decpt - n)) +:+ ".0"
  else
    substring 0 (Z.to_nat decpt) ds +:+ "." +:+
    substring (Z.to_nat decpt) (Z.to_nat (n - decpt)) ds.

(** [repr(x)], which is also [str(x)] and what an f-string field prints. *)
Definition repr (x : float) : string :=
  match x with
  | S754_nan => "nan"
  | S754_infinity false => "inf"
  | S754_infinity true => "-inf"
  | S754_zero false => "0.0"
  | S754_zero true => "-0.0"
  | S754_finite s m e =>
      let '(c, k) := shortest m e in
      (if s then "-" else EmptyString) +:+ format_short c k
  end.


Definition fsub : float -> float -> float := SFsub prec emax.
Definition fabs : float -> float := SFabs.

(** [x <= y], false when one of them is a nan. *)
Definition fle : float -> float -> bool := SFleb.

(** One item of the compensated sum of CPython 3.12 and later (Neumaier's
    algorithm): the running sum [f_result] and the correction [c]. *)
Definition neumaier_step (acc : float * float) (x : float) : float * float :=
  let (f_result, c) := acc in
  let t := fadd f_result x in
  let c :=
    if fle (fabs x) (fabs f_result)
    then fadd c (fadd (fsub f_result t) x)
    else fadd c (fadd (fsub x t) f_result) in
  (t, c).

(** [c && isfinite(c)] *)
Definition nonzero_finite (c : float) : bool :=
  match c with
  | S754_finite _ _ _ => true
  | _ => false
  end.

(** [sum(l)] for a list of floats, starting from the int [0]. The first
    float is added to the int. Up to CPython 3.11 every further float is
    added to the running sum; from CPython 3.12 on the rounding errors of
    these additions are collected in a correction that is added at the
    end. [compensated] tells which interpreter runs. *)
Definition sum (compensated : bool) (l : list float) : float :=
  if compensated then
    match l with
    | [] => of_int 0
    | x :: l' =>
        let (f_result, c) :=
          fold_left neumaier_step l' (fadd (of_int 0) x, zero) in
        if nonzero_finite c then fadd f_result c else f_result
    end
  else fold_left fadd l (of_int 0).

End PyFloat.

(** The error taxonomy of the specification, as the messages the code
    raises. *)
Definition UnknownProvider (model : string) : exn :=
  Exception ("Unknown model: " +:+ model).

Definition UnknownMethod (method : string) : exn :=
  Exception ("Unknown prompting method: " +:+ method).

Definition MissingDependency : exn :=
  Exception "Please install the sft package from DeepOpinion in order to use the sft prompting method.".

(** The message of the last statement of [create_llm]. *)
Definition UnknownProviderTag (provider : string) : exn :=
  Exception ("Unknown provider: " +:+ provider).

(** ** get_provider *)

Definition get_provider (model : string) : result string :=
  if startswith model "gpt" then Ok "openai"
  else if startswith model "gemini" then Ok "vertexai"
  else if startswith model "mistral" then Ok "mistral"
  else if startswith model "claude" then Ok "anthropic"
  else Raise (UnknownProvider model).

(** ** sys_message, requires_human_message *)

Definition sys_message (model : string) : result string :=
  Py.bind (get_provider model) (fun provider =>
  Ok (if String.eqb provider "vertexai" then "user" else "system")).

Definition requires_human_message (model : string) : result bool :=
  Py.bind (get_provider model) (fun provider =>
  Ok (String.eqb provider "anthropic")).

(** ** create_die_prompt *)

(** A prompt spec: the (role, template) pairs handed to
    [ChatPromptTemplate.from_messages]. *)
Definition PromptSpec : Type := list (string * string).

Definition sys_prompt0 : string :=
  "You are a document information extraction system." +:+ nl +:+
  "You are given a document and a json with keys that must be extracted from the document." +:+ nl.

Definition doc_prompt0 : string :=
  "Here is the document:" +:+ nl +:+ "{document}" +:+ nl +:+
  "{format_instructions}" +:+ nl.

Definition json_only_instruction : string :=
  "Never include natural text in your answer, return a json only! The message must start with {{ and end with }}." +:+ nl.

Definition create_die_prompt (model : string) : result PromptSpec :=
  Py.bind (get_provider model) (fun provider =>
  let sys_prompt := sys_prompt0 in
  let doc_prompt := doc_prompt0 in
  let doc_prompt :=
    if String.eqb provider "anthropic"
    then doc_prompt +:+ json_only_instruction
    else doc_prompt in
  Py.bind (requires_human_message model) (fun human =>
  if negb human then
    let sys_prompt := sys_prompt +:+ doc_prompt in
    Py.bind (sys_message model) (fun role => Ok [(role, sys_prompt)])
  else
    Py.bind (sys_message model) (fun role =>
    Ok [(role, sys_prompt); ("human", doc_prompt)]))).

(** ** get_parallelism *)

Definition get_parallelism (model : string) : result nat :=
  Py.bind (get_provider model) (fun provider =>
  if String.eqb provider "anthropic" then Ok 1 else Ok 5).

(** ** Collaborators

    What the module imports or is handed by its caller: the OCR scanner,
    the two prompt formatters of the [utils] package, the process
    environment and the chain of prompt, chat model and caller-supplied
    parser. Their calls can raise. *)

(** One recognised fragment of an OCR scan: the dict [x] with its
    [x["text"]] entry and its geometry. *)
Record fragment : Type := { text : string; bbox : list Z }.

Definition Scan : Type := list fragment.

(** [settings]: the keyword arguments shared by all four constructors. *)
Definition Settings : Type := list (string * PyFloat.float).

(** The chat client objects [create_llm] constructs, with the keyword
    arguments of each constructor call. What a constructor of the
    libraries does with its arguments is not followed. *)
Inductive ChatClient : Type :=
| ChatOpenAI (model : string) (settings : Settings)
| ChatVertexAI (model_name : string)
    (convert_system_message_to_human : bool) (settings : Settings)
| ChatMistralAI (model : string) (endpoint mistral_api_key : option string)
    (settings : Settings)
| ChatAnthropic (model_name : string) (settings : Settings).

Class Collaborators : Type := {
  (** PIL images, with their [size] attribute *)
  Image : Type;
  size : Image -> Z * Z;
  (** [ocr_scanner.ocr]; the cache file the scanner keeps for itself is
      not among the files of the state below *)
  ocr : Image -> result Scan;
  (** [utils.latin.to_prompt] *)
  latin_to_prompt : Scan -> Z * Z -> result string;
  (** the module [utils.sft], [None] when its import failed *)
  sft : option (Scan -> Image -> result string);
  (** [os.environ] *)
  environ : gmap string string;
  (** the interpreter: whether its [sum] is the compensated one of
      CPython 3.12 and later *)
  compensated_sum : bool;
  (** the caller's parser object *)
  Parser : Type;
  get_format_instructions : Parser -> string;
  (** what the chain returns, and its [dict()] *)
  Output : Type;
  dict : Output -> gmap string string;
  (** [(prompt | llm | parser).ainvoke(inputs)] *)
  chain_ainvoke :
    PromptSpec -> ChatClient -> Parser ->
    forall (document format_instructions : string), result Output
}.

(** [asyncio.Semaphore(value)] objects live in a heap and are referred to
    by their position in it, so that two references are the same object
    exactly when they are equal. *)
Record Semaphore : Type := { sem_value : nat }.

Section misc.
Context `{Collaborators}.

(** What a run does to the outside, in order. *)
Inductive event : Type :=
| EvOcr (img : Image)
| EvSleep (seconds : nat)
| EvAcquire (sem : nat)
| EvRelease (sem : nat)
| EvInvoke (prompt : PromptSpec) (llm : ChatClient)
    (document format_instructions : string).

(** The interpreter state the module reads and writes. *)
Record state : Type := {
  invoke_semaphore : option nat;
  heap : list Semaphore;
  files : gmap string string;
  trace : list event
}.

(** Module load: [invoke_semaphore = None]. *)
Definition initial_state (fs : gmap string string) : state :=
  {| invoke_semaphore := None; heap := []; files := fs; trace := [] |}.

(** Stateful, possibly raising computations. *)
Definition M (A : Type) : Type := state -> result A * state.

Definition ret {A} (a : A) : M A := fun s => (Ok a, s).

Definition raise {A} (e : exn) : M A := fun s => (Raise e, s).

Definition mbind {A B} (c : M A) (k : A -> M B) : M B := fun s =>
  match c s with
  | (Ok a, s') => k a s'
  | (Raise e, s') => (Raise e, s')
  end.

Definition lift {A} (r : result A) : M A := fun s => (r, s).

Definition emit (ev : event) : M unit := fun s =>
  (Ok tt, {| invoke_semaphore := invoke_semaphore s; heap := heap s;
             files := files s; trace := trace s ++ [ev] |}).

End misc.

Declare Scope py_scope.
Delimit Scope py_scope with py.
Notation "'let*' x ':=' c 'in' k" := (mbind c (fun x => k))
  (at level 10, x name, c at level 100, k at level 200) : py_scope.
Notation "'await' c 'then' k" := (mbind c (fun _ => k))
  (at level 10, c at level 100, k at level 200) : py_scope.

Section functions.
Context `{Collaborators}.
Local Open Scope py_scope.

(** ** doc_to_prompt *)

Definition doc_to_prompt (img : Image) (method : string) : M string :=
  let* scan := (await emit (EvOcr img) then lift (ocr img)) in
  if String.eqb method "simple" then
    ret (join " " (map text scan))
  else if String.eqb method "latin" then
    lift (latin_to_prompt scan (size img))
  else if String.eqb method "sft" then
    match sft with
    | None => raise MissingDependency
    | Some sft_to_prompt => lift (sft_to_prompt scan img)
    end
  else raise (UnknownMethod method).

(** ** create_llm *)

Definition settings : Settings := [("temperature", PyFloat.zero)].

Definition create_llm (model : string) : result ChatClient :=
  Py.bind (get_provider model) (fun provider =>
  let model :=
    if String.eqb model "gpt-4-turbo" then "gpt-4-1106-preview"
    else if String.eqb model "claude-3" then "claude-3-opus-20240229"
    else model in
  if String.eqb provider "openai" then
    Ok (ChatOpenAI model settings)
  else if String.eqb provider "vertexai" then
    Ok (ChatVertexAI model true settings)
  else if String.eqb provider "mistral" then
    let endpoint := environ !! "MISTRAL_ENDPOINT" in
    let api_key := environ !! "MISTRAL_API_KEY" in
    Ok (ChatMistralAI model endpoint api_key settings)
  else if String.eqb provider "anthropic" then
    Ok (ChatAnthropic model settings)
  else Raise (UnknownProviderTag provider)).

(** ** throttle *)

Definition throttle (model : string) : M unit :=
  let* provider := lift (get_provider model) in
  if String.eqb provider "anthropic" then emit (EvSleep 10) else ret tt.

(** ** get_semaphore *)

(** [asyncio.Semaphore(p)]: a new object, returned by reference. *)
Definition new_Semaphore (p : nat) : M nat := fun s =>
  (Ok (length (heap s)),
   {| invoke_semaphore := invoke_semaphore s;
      heap := heap s ++ [{| sem_value := p |}];
      files := files s; trace := trace s |}).

Definition set_invoke_semaphore (v : option nat) : M unit := fun s =>
  (Ok tt, {| invoke_semaphore := v; heap := heap s;
             files := files s; trace := trace s |}).

Definition get_invoke_semaphore : M (option nat) := fun s =>
  (Ok (invoke_semaphore s), s).

Definition get_semaphore (model : string) : M nat :=
  let* current := get_invoke_semaphore in
  match current with
  | None =>
      let* p := lift (get_parallelism model) in
      let* sem := new_Semaphore p in
      await set_invoke_semaphore (Some sem) then
      ret sem
  | Some sem => ret sem
  end.

(** ** ainvoke_die *)

(** [async with sem: body]: the permit is taken before the body and given
    back when the body is left, also when it is left by an exception. The
    wait for a free permit is a suspension point; the body is followed
    from the moment the permit is granted. *)
Definition async_with {A} (sem : nat) (body : M A) : M A := fun s =>
  match emit (EvAcquire sem) s with
  | (_, s1) =>
      match body s1 with
      | (r, s2) => (r, snd (emit (EvRelease sem) s2))
      end
  end.

(** The [images] argument: a list of pages or one image. *)
Inductive Images : Type :=
| ImageList (l : list Image)
| SingleImage (img : Image).

(** The [for idx, img in enumerate(images)] loop, with [pages] as it
    stands when the remaining items are entered. *)
Fixpoint render_pages (method : string) (items : list (nat * Image))
    (pages : list string) : M (list string) :=
  match items with
  | [] => ret pages
  | (idx, img) :: items' =>
      let* page := doc_to_prompt img method in
      let page := "## Page " +:+ str (idx + 1) +:+ nl +:+ page +:+ nl in
      render_pages method items' (pages ++ [page])
  end.

Definition ainvoke_die (model method : string) (parser : Parser)
    (images : Images) : M (gmap string string) :=
  let* sem := get_semaphore model in
  let* output := async_with sem (
    let* llm := lift (create_llm model) in
    let* die_prompt := lift (create_die_prompt model) in
    let prompt := die_prompt in
    let* doc_prompt :=
      match images with
      | ImageList l =>
          let* pages := render_pages method (enumerate l) [] in
          ret (join nl pages)
      | SingleImage img => doc_to_prompt img method
      end in
    await throttle model then
    let format_instructions := get_format_instructions parser in
    await emit (EvInvoke prompt llm doc_prompt format_instructions) then
    lift (chain_ainvoke prompt llm parser doc_prompt format_instructions)) in
  ret (dict output).

(** ** log_result *)

(** [with open(path, "a") as f: f.write(text)]: the file is created when
    it does not exist and the text goes after what it holds. *)
Definition append_file (path text : string) : M unit := fun s =>
  (Ok tt,
   {| invoke_semaphore := invoke_semaphore s; heap := heap s;
      files := <[path := default EmptyString (files s !! path) +:+ text]>
                 (files s);
      trace := trace s |}).

Definition log_result (dataset model method : string)
    (anlss : list PyFloat.float) : M unit :=
  let anls_sum := PyFloat.sum compensated_sum anlss in
  let anls_len := length anlss in
  let anls_mean :=
    if (0 <? anls_len)%nat
    then PyFloat.round
           (PyFloat.fdiv anls_sum (PyFloat.of_int (Z.of_nat anls_len))) 3
    else PyFloat.zero in
  append_file "results.txt"
    (dataset +:+ " | " +:+ model +:+ " | " +:+ method +:+ " | ANLS*: " +:+
     PyFloat.repr anls_mean +:+ nl).

End functions.

(** ** A concrete set of collaborators

    Images are page numbers; the scanner reads two fragments on page 1,
    one on page 2 and fails on page 0; the optional [sft] package is not
    installed; the chain answers with the document it was given. *)

Definition demo_ocr (img : nat) : result Scan :=
  match img with
  | 0 => Raise (Exception "OCR failed")
  | 1 => Ok [{| text := "A"; bbox := [] |}; {| text := "B"; bbox := [] |}]
  | _ => Ok [{| text := "C"; bbox := [] |}]
  end.

Definition demo_collaborators
    (sft_module : option (Scan -> nat -> result string)) : Collaborators :=
  {| Image := nat;
     size := fun _ => (210, 297)%Z;
     ocr := demo_ocr;
     latin_to_prompt := fun scan _ => Ok (join nl (map text scan));
     sft := sft_module;
     environ := {["MISTRAL_API_KEY" := "key"]};
     compensated_sum := true;
     Parser := unit;
     get_format_instructions := fun _ => "Return a json.";
     Output := string;
     dict := fun out => {["document" := out]};
     chain_ainvoke := fun _ _ _ document _ => Ok document |}.

Definition without_sft : Collaborators := demo_collaborators None.

Definition with_sft : Collaborators :=
  demo_collaborators (Some (fun scan _ => Ok (join "|" (map text scan)))).

(** ** Vocabulary of the statements *)

(** [p] is a prefix of [s]. *)
Definition starts_with (s p : string) : Prop := exists rest, s = p +:+ rest.

(** The four provider tags. *)
Definition provider_tags : list string :=
  ["openai"; "vertexai"; "mistral"; "anthropic"].

(** The provider a client object talks to. *)
Definition client_provider (llm : ChatClient) : string :=
  match llm with
  | ChatOpenAI _ _ => "openai"
  | ChatVertexAI _ _ _ => "vertexai"
  | ChatMistralAI _ _ _ _ => "mistral"
  | ChatAnthropic _ _ => "anthropic"
  end.

(** The literal text of a template once it is formatted: a doubled brace
    stands for one brace. *)
Fixpoint template_text (s : string) : string :=
  match s with
  | String "{" (String "{" r) => String "{" (template_text r)
  | String "}" (String "}" r) => String "}" (template_text r)
  | String c r => String c (template_text r)
  | EmptyString => EmptyString
  end.

(** One page block of a multi-page document, with its page number. *)
Definition page_block (n : nat) (page_text : string) : string :=
  "## Page " +:+ str n +:+ nl +:+ page_text +:+ nl.

(** The blocks of consecutive pages, the first one numbered [n]. *)
Fixpoint page_blocks_from (n : nat) (texts : list string) : list string :=
  match texts with
  | [] => []
  | page_text :: texts' => page_block n page_text :: page_blocks_from (S n) texts'
  end.

(** The mean a log line shows: the float sum over the length, rounded to
    3 decimals, or 0.0 for no scores. *)
Definition rounded_mean `{Collaborators} (anlss : list PyFloat.float)
  : PyFloat.float :=
  match anlss with
  | [] => PyFloat.zero
  | _ :: _ =>
      PyFloat.round
        (PyFloat.fdiv (PyFloat.sum compensated_sum anlss)
           (PyFloat.of_int (Z.of_nat (length anlss)))) 3
  end.

(** [y] is [x] rounded to [ndigits] decimals: for a finite [x], of exact
    value plus or minus [m * 2^e], the double nearest to [n / 10^ndigits],
    with the sign of [x], for an integer [n] no farther than one half from
    [m * 2^e * 10^ndigits]; every other [x] is left as it is. *)
Definition rounded_to_decimals (ndigits : nat) (x y : PyFloat.float)
  : Prop :=
  match x with
  | S754_finite sign m e =>
      exists n : Z,
        (Z.abs (2 * (Zpos m * 10 ^ Z.of_nat ndigits * 2 ^ Z.max 0 e) -
                2 * n * 2 ^ Z.max 0 (- e)) <= 2 ^ Z.max 0 (- e))%Z /\
        y = (if sign
             then SFopp (PyFloat.nearest n (10 ^ Z.of_nat ndigits))
             else PyFloat.nearest n (10 ^ Z.of_nat ndigits))
  | _ => y = x
  end.

(** A line of the result log. *)
Definition result_line (dataset model method : string)
    (mean : PyFloat.float) : string :=
  dataset +:+ " | " +:+ model +:+ " | " +:+ method +:+ " | ANLS*: " +:+
  PyFloat.repr mean +:+ nl.

Section vocabulary.
Context `{Collaborators}.

(** The state with more events at the end of its trace. *)
Definition logs (evs : list event) (s : state) : state :=
  {| invoke_semaphore := invoke_semaphore s; heap := heap s;
     files := files s; trace := trace s ++ evs |}.

(** What rendering one page returns. *)
Definition page_text (method : string) (img : Image) : result string :=
  fst (doc_to_prompt img method (initial_state ∅)).

(** The texts of the pages of a list, or the error of the first page that
    fails. *)
Fixpoint page_texts (method : string) (imgs : list Image)
  : result (list string) :=
  match imgs with
  | [] => Ok []
  | img :: imgs' =>
      Py.bind (page_text method img) (fun t =>
      Py.bind (page_texts method imgs') (fun ts => Ok (t :: ts)))
  end.

(** The pages that get scanned: all up to and including the first one
    that fails. *)
Fixpoint scanned (method : string) (imgs : list Image) : list Image :=
  match imgs with
  | [] => []
  | img :: imgs' =>
      img :: match page_text method img with
             | Ok _ => scanned method imgs'
             | Raise _ => []
             end
  end.

(** The pages of the [images] argument. *)
Definition pages_of (images : Images) : list Image :=
  match images with
  | ImageList l => l
  | SingleImage img => [img]
  end.

(** The pages a call scans. *)
Definition scans (method : string) (images : Images) : list Image :=
  match images with
  | ImageList l => scanned method l
  | SingleImage img => [img]
  end.

(** The document prompt of a call, or the error of its rendering. *)
Definition document (method : string) (images : Images) : result string :=
  match images with
  | ImageList l =>
      Py.bind (page_texts method l) (fun ts =>
      Ok (join nl (page_blocks_from 1 ts)))
  | SingleImage img => page_text method img
  end.

(** The delay events a provider calls for. *)
Definition delay_events (provider : string) : list event :=
  if String.eqb provider "anthropic" then [EvSleep 10] else [].

Definition is_delay (ev : event) : bool :=
  match ev with
  | EvSleep _ => true
  | _ => false
  end.

(** The delays of a trace. *)
Definition delays (tr : list event) : list event := filter is_delay tr.

(** The trace has a model invocation. *)
Definition invokes (tr : list event) : Prop :=
  exists prompt llm doc fi, In (EvInvoke prompt llm doc fi) tr.

(** A process: [get_semaphore] called for one model after the other, each
    outcome kept. *)
Fixpoint get_semaphore_calls (models : list string) (s : state)
  : list (result nat) * state :=
  match models with
  | [] => ([], s)
  | model :: models' =>
      let (r, s') := get_semaphore model s in
      let (rs, s'') := get_semaphore_calls models' s' in
      (r :: rs, s'')
  end.

(** What holds of the global and the heap in a process that only reaches
    them through [get_semaphore]: nothing was created yet, or the one
    semaphore was. *)
Definition gate_invariant (s : state) : Prop :=
  (invoke_semaphore s = None /\ heap s = []) \/
  (invoke_semaphore s = Some 0 /\ exists sem, heap s = [sem]).

End vocabulary.

(** ** Further vocabulary *)

(** The model name a client object was constructed with. *)
Definition client_model (llm : ChatClient) : string :=
  match llm with
  | ChatOpenAI model _ => model
  | ChatVertexAI model_name _ _ => model_name
  | ChatMistralAI model _ _ _ => model
  | ChatAnthropic model_name _ => model_name
  end.

(** The shared keyword arguments a client object was constructed with. *)
Definition client_settings (llm : ChatClient) : Settings :=
  match llm with
  | ChatOpenAI _ settings => settings
  | ChatVertexAI _ _ settings => settings
  | ChatMistralAI _ _ _ settings => settings
  | ChatAnthropic _ settings => settings
  end.

(** One evaluation run handed to [log_result]. *)
Record logged_run : Type := {
  run_dataset : string;
  run_model : string;
  run_method : string;
  run_anlss : list PyFloat.float
}.

Section further_vocabulary.
Context `{Collaborators}.

Definition is_gate_event (ev : event) : bool :=
  match ev with
  | EvAcquire _ | EvRelease _ => true
  | _ => false
  end.

(** The gate events of a trace. *)
Definition gate_events (tr : list event) : list event :=
  filter is_gate_event tr.

(** The semaphore a gate event is about. *)
Definition gate_event_on (sem : nat) (ev : event) : Prop :=
  match ev with
  | EvAcquire sem' | EvRelease sem' => sem' = sem
  | _ => True
  end.

(** The arguments of one call of [ainvoke_die]. *)
Record die_call : Type := {
  call_model : string;
  call_method : string;
  call_parser : Parser;
  call_images : Images
}.

(** A process: [ainvoke_die] called one call after the other, each left by
    its return or by its exception. *)
Fixpoint ainvoke_die_calls (calls : list die_call) (s : state) : state :=
  match calls with
  | [] => s
  | c :: calls' =>
      ainvoke_die_calls calls'
        (snd (ainvoke_die (call_model c) (call_method c) (call_parser c)
                (call_images c) s))
  end.

(** [log_result] called for one run after the other. *)
Fixpoint log_results (runs : list logged_run) (s : state) : state :=
  match runs with
  | [] => s
  | r :: runs' =>
      log_results runs'
        (snd (log_result (run_dataset r) (run_model r) (run_method r)
                (run_anlss r) s))
  end.

(** The lines of a list of runs, one after the other. *)
Fixpoint result_lines (runs : list logged_run) : string :=
  match runs with
  | [] => EmptyString
  | r :: runs' =>
      result_line (run_dataset r) (run_model r) (run_method r)
        (rounded_mean (run_anlss r)) +:+ result_lines runs'
  end.

(** What a process of calls keeps true: one gate at most, every gate
    event about it. *)
Definition process_invariant (s : state) : Prop :=
  gate_invariant s /\ Forall (gate_event_on 0) (trace s).

End further_vocabulary.

(** * Strings *)

Lemma append_assoc (s1 s2 s3 : string) :
  (s1 +:+ s2) +:+ s3 = s1 +:+ (s2 +:+ s3).
Proof.
  induction s1 as [|a s1 IH]; [reflexivity|].
  change (String a ((s1 +:+ s2) +:+ s3) = String a (s1 +:+ (s2 +:+ s3))).
  now f_equal.
Qed.

(** * Provider resolution *)

Lemma startswith_spec (s p : string) :
  startswith s p = true <-> starts_with s p.
Proof.
  unfold startswith, starts_with. revert s.
  induction p as [|a p IH]; intros s.
  - destruct s; simpl; split; eauto.
  - destruct s as [|b s]; simpl.
    + split; [discriminate | intros [rest Hr]; discriminate].
    + destruct (ascii_dec a b) as [->|Hne].
      * rewrite IH. split; intros [rest Hr]; exists rest.
        -- now rewrite Hr.
        -- now injection Hr.
      * split; [discriminate|]. intros [rest Hr]. injection Hr as Hab _.
        congruence.
Qed.

Lemma startswith_false (s p : string) :
  startswith s p = false <-> ~ starts_with s p.
Proof.
  rewrite <- startswith_spec. destruct (startswith s p); split; congruence.
Qed.

(** Two prefixes of one string that differ within their common length
    exclude each other. *)
Lemma startswith_exclusive (s p q : string) :
  String.prefix p q = false -> String.prefix q p = false ->
  startswith s p = true -> startswith s q = false.
Proof.
  unfold startswith. revert q s.
  induction p as [|a p IH]; intros q s Hpq Hqp Hp.
  - destruct q; discriminate.
  - destruct q as [|b q]; [destruct p; discriminate|].
    destruct s as [|c s]; [discriminate|].
    simpl in *. destruct (ascii_dec a c) as [->|]; [|discriminate].
    destruct (ascii_dec b c) as [->|]; [|reflexivity].
    destruct (ascii_dec c c); [|congruence]. eauto.
Qed.

(** What [get_provider] returns is one of the four tags. *)
Lemma get_provider_tag (model provider : string) :
  get_provider model = Ok provider -> In provider provider_tags.
Proof.
  unfold get_provider, provider_tags.
  repeat (destruct (startswith model _);
          [intros [= <-]; simpl; tauto|]).
  discriminate.
Qed.

(** What [get_provider] raises is the unknown-model error of that model. *)
Lemma get_provider_raise (model : string) (e : exn) :
  get_provider model = Raise e -> e = UnknownProvider model.
Proof.
  unfold get_provider.
  repeat (destruct (startswith model _); [discriminate|]).
  now intros [= <-].
Qed.

(** ** C2 *)

(** C2. For every model identifier, [get_provider] returns "openai" when
    the identifier starts with "gpt", "vertexai" when it starts with
    "gemini", "mistral" when it starts with "mistral", "anthropic" when it
    starts with "claude", and raises the unknown-provider error for every
    other identifier. It is a function of the identifier alone: run inside
    the interpreter it leaves the state as it was. *)
Theorem get_provider_by_prefix (model : string) :
  (starts_with model "gpt" -> get_provider model = Ok "openai") /\
  (starts_with model "gemini" -> get_provider model = Ok "vertexai") /\
  (starts_with model "mistral" -> get_provider model = Ok "mistral") /\
  (starts_with model "claude" -> get_provider model = Ok "anthropic") /\
  (~ starts_with model "gpt" -> ~ starts_with model "gemini" ->
   ~ starts_with model "mistral" -> ~ starts_with model "claude" ->
   get_provider model = Raise (UnknownProvider model)) /\
  (forall (C : Collaborators) (s : state),
     lift (get_provider model) s = (get_provider model, s)).
Proof.
  unfold get_provider. repeat split.
  - intros H%startswith_spec. now rewrite H.
  - intros H%startswith_spec.
    rewrite (startswith_exclusive model "gemini" "gpt"); auto.
    now rewrite H.
  - intros H%startswith_spec.
    rewrite (startswith_exclusive model "mistral" "gpt"); auto.
    rewrite (startswith_exclusive model "mistral" "gemini"); auto.
    now rewrite H.
  - intros H%startswith_spec.
    rewrite (startswith_exclusive model "claude" "gpt"); auto.
    rewrite (startswith_exclusive model "claude" "gemini"); auto.
    rewrite (startswith_exclusive model "claude" "mistral"); auto.
    now rewrite H.
  - intros H1%startswith_false H2%startswith_false
           H3%startswith_false H4%startswith_false.
    now rewrite H1, H2, H3, H4.
Qed.

(** Case analysis on the four tags. *)
Ltac provider_cases Hp :=
  let Hin := fresh "Hin" in
  pose proof (get_provider_tag _ _ Hp) as Hin;
  unfold provider_tags in Hin; simpl in Hin;
  destruct Hin as [<-|[<-|[<-|[<-|[]]]]].

(** * The client factory *)

(** For a recognised model the factory returns a client of the provider. *)
Lemma create_llm_recognised (C : Collaborators) (model provider : string) :
  get_provider model = Ok provider ->
  exists llm, create_llm model = Ok llm /\ client_provider llm = provider.
Proof.
  intros Hp. unfold create_llm. rewrite Hp.
  provider_cases Hp; simpl; eexists; split; reflexivity.
Qed.

(** For an unknown model the factory raises what [get_provider] raises. *)
Lemma create_llm_unknown (C : Collaborators) (model : string) (e : exn) :
  get_provider model = Raise e -> create_llm model = Raise e.
Proof. intros Hp. unfold create_llm. now rewrite Hp. Qed.

(** ** C9 *)

(** C9. The last statement of [create_llm], the raise of "Unknown
    provider", is never reached: for every model, either [get_provider]
    raises the unknown-model error and [create_llm] raises that same error,
    or [get_provider] returns one of the four tags and [create_llm] returns
    a client of that provider. *)
Theorem create_llm_final_raise_unreachable (C : Collaborators)
    (model : string) :
  (forall provider, create_llm model <> Raise (UnknownProviderTag provider)) /\
  ((get_provider model = Raise (UnknownProvider model) /\
    create_llm model = Raise (UnknownProvider model)) \/
   (exists provider llm,
      get_provider model = Ok provider /\ In provider provider_tags /\
      create_llm model = Ok llm /\ client_provider llm = provider)).
Proof.
  destruct (get_provider model) as [provider|e] eqn:Hp.
  - destruct (create_llm_recognised C model provider Hp) as (llm & Hllm & Hcl).
    split.
    + intros provider'. rewrite Hllm. discriminate.
    + right. exists provider, llm.
      repeat split; eauto using get_provider_tag.
  - pose proof (get_provider_raise _ _ Hp) as ->.
    pose proof (create_llm_unknown C model _ Hp) as Hllm.
    split.
    + intros provider'. rewrite Hllm. unfold UnknownProvider, UnknownProviderTag.
      simpl. discriminate.
    + left. auto.
Qed.

(** * The prompt builder *)

(** The prompt spec of a recognised model. *)
Lemma create_die_prompt_recognised (model provider : string) :
  get_provider model = Ok provider ->
  create_die_prompt model =
    Ok (if String.eqb provider "anthropic"
        then [("system", sys_prompt0);
              ("human", doc_prompt0 +:+ json_only_instruction)]
        else [(if String.eqb provider "vertexai" then "user" else "system",
               sys_prompt0 +:+ doc_prompt0)]).
Proof.
  intros Hp. unfold create_die_prompt, requires_human_message, sys_message.
  rewrite Hp. provider_cases Hp; reflexivity.
Qed.

(** ** C5 *)

(** C5. For every recognised model the leading entry of the prompt spec has
    the role "user" when the provider is vertexai and "system" otherwise.
    For anthropic the spec has exactly two entries, the leading one with the
    system text and a "human" entry with the document template, to which
    the instruction to answer with a json only, starting with an opening
    and ending with a closing brace, is appended. For every other provider
    the spec is one entry with the document template folded into it. *)
Theorem create_die_prompt_shape (model provider : string)
    (Hp : get_provider model = Ok provider) :
  let role := if String.eqb provider "vertexai" then "user" else "system" in
  (provider = "anthropic" ->
   create_die_prompt model =
     Ok [(role, sys_prompt0);
         ("human", doc_prompt0 +:+ json_only_instruction)]) /\
  (provider <> "anthropic" ->
   create_die_prompt model = Ok [(role, sys_prompt0 +:+ doc_prompt0)]) /\
  template_text json_only_instruction =
    "Never include natural text in your answer, return a json only! The message must start with { and end with }." +:+ nl.
Proof.
  rewrite (create_die_prompt_recognised model provider Hp).
  simpl. repeat split.
  - now intros ->.
  - intros Hne. destruct (String.eqb_spec provider "anthropic"); congruence.
Qed.

(** * Runs of the stateful functions *)

Section runs.
Context `{Collaborators}.
Local Open Scope py_scope.
Local Open Scope list_scope.

Lemma logs_nil (s : state) : logs [] s = s.
Proof. destruct s. unfold logs. simpl. now rewrite app_nil_r. Qed.

Lemma logs_logs (evs1 evs2 : list event) (s : state) :
  logs evs2 (logs evs1 s) = logs (evs1 ++ evs2) s.
Proof. unfold logs. simpl. now rewrite app_assoc. Qed.

(** Rendering a page scans it once and does nothing else to the state;
    what it returns does not depend on the state. *)
Lemma doc_to_prompt_run (img : Image) (method : string) (s : state) :
  doc_to_prompt img method s = (page_text method img, logs [EvOcr img] s).
Proof.
  unfold page_text, doc_to_prompt, mbind, lift, emit, ret, raise. simpl.
  destruct (ocr img) as [scan|e]; [|reflexivity].
  destruct (String.eqb method "simple"); [reflexivity|].
  destruct (String.eqb method "latin"); [reflexivity|].
  destruct (String.eqb method "sft"); [|reflexivity].
  destruct sft; reflexivity.
Qed.

(** The page loop: the blocks of the pages go after the ones collected,
    numbered on from the index of the first item, unless a page fails. *)
Lemma render_pages_run (method : string) (imgs : list Image) :
  forall (n : nat) (pages : list string) (s : state),
    render_pages method (enumerate_from n imgs) pages s =
      (Py.bind (page_texts method imgs) (fun ts =>
         Ok (pages ++ page_blocks_from (S n) ts)),
       logs (map EvOcr (scanned method imgs)) s).
Proof.
  induction imgs as [|img imgs IH]; intros n pages s; simpl.
  - unfold ret. now rewrite app_nil_r, logs_nil.
  - unfold mbind at 1. rewrite doc_to_prompt_run.
    destruct (page_text method img) as [t|e]; simpl; [|reflexivity].
    rewrite IH, logs_logs. simpl.
    destruct (page_texts method imgs) as [ts|e]; simpl; [|reflexivity].
    rewrite <- app_assoc. simpl. unfold page_block.
    now rewrite Nat.add_1_r.
Qed.

(** When every page renders, every page was scanned. *)
Lemma scanned_all (method : string) (imgs : list Image) (ts : list string) :
  page_texts method imgs = Ok ts -> scanned method imgs = imgs.
Proof.
  revert ts. induction imgs as [|img imgs IH]; intros ts; simpl; [easy|].
  destruct (page_text method img); [|discriminate]. simpl.
  destruct (page_texts method imgs) eqn:E; [|discriminate].
  intros _. f_equal. eauto.
Qed.

Lemma scans_all (method : string) (images : Images) (doc : string) :
  document method images = Ok doc -> scans method images = pages_of images.
Proof.
  destruct images as [l|img]; simpl; [|easy].
  destruct (page_texts method l) eqn:E; [|discriminate].
  intros _. eauto using scanned_all.
Qed.

(** The rendering stage of a call. *)
Lemma render_stage_run (method : string) (images : Images) (s : state) :
  match images with
  | ImageList l =>
      let* pages := render_pages method (enumerate l) [] in
      ret (join nl pages)
  | SingleImage img => doc_to_prompt img method
  end s = (document method images, logs (map EvOcr (scans method images)) s).
Proof.
  destruct images as [l|img]; simpl.
  - unfold mbind, enumerate. rewrite render_pages_run.
    destruct (page_texts method l); reflexivity.
  - apply doc_to_prompt_run.
Qed.

(** The gate: the existing semaphore, or a new one sized for the model. *)
Lemma get_semaphore_run (model : string) (s : state) :
  get_semaphore model s =
    match invoke_semaphore s with
    | Some sem => (Ok sem, s)
    | None =>
        match get_provider model with
        | Ok provider =>
            (Ok (length (heap s)),
             {| invoke_semaphore := Some (length (heap s));
                heap := heap s ++
                  [{| sem_value :=
                        if String.eqb provider "anthropic" then 1 else 5 |}];
                files := files s; trace := trace s |})
        | Raise e => (Raise e, s)
        end
    end.
Proof.
  unfold get_semaphore, mbind, get_invoke_semaphore, lift, get_parallelism.
  destruct (invoke_semaphore s); [reflexivity|].
  destruct (get_provider model) as [provider|e]; simpl; [|reflexivity].
  destruct (String.eqb provider "anthropic"); reflexivity.
Qed.

Lemma throttle_run (model provider : string) (s : state) :
  get_provider model = Ok provider ->
  throttle model s = (Ok tt, logs (delay_events provider) s).
Proof.
  intros Hp. unfold throttle, mbind, lift, delay_events. rewrite Hp.
  destruct (String.eqb provider "anthropic"); [reflexivity|].
  unfold ret. now rewrite logs_nil.
Qed.

(** A call for a recognised model: the gate is entered, the pages are
    scanned, and either the rendering error leaves the gate or the delay
    of the provider and the invocation of the chain follow. *)
Lemma ainvoke_die_run (model method : string) (parser : Parser)
    (images : Images) (s s1 : state) (provider : string) (sem : nat) :
  get_provider model = Ok provider ->
  get_semaphore model s = (Ok sem, s1) ->
  exists llm prompt,
    create_llm model = Ok llm /\ client_provider llm = provider /\
    create_die_prompt model = Ok prompt /\
    ainvoke_die model method parser images s =
      match document method images with
      | Raise e =>
          (Raise e,
           logs ([EvAcquire sem] ++ map EvOcr (scans method images) ++
                 [EvRelease sem]) s1)
      | Ok doc =>
          let fi := get_format_instructions parser in
          (Py.bind (chain_ainvoke prompt llm parser doc fi)
             (fun output => Ok (dict output)),
           logs ([EvAcquire sem] ++ map EvOcr (pages_of images) ++
                 delay_events provider ++
                 [EvInvoke prompt llm doc fi; EvRelease sem]) s1)
      end.
Proof.
  intros Hp Hsem.
  destruct (create_llm_recognised _ model provider Hp) as (llm & Hllm & Hcl).
  pose proof (create_die_prompt_recognised model provider Hp) as Hpr.
  eexists llm, _. repeat split; eauto.
  unfold ainvoke_die. unfold mbind at 1. rewrite Hsem.
  unfold mbind at 1. unfold async_with. simpl.
  rewrite Hllm, Hpr. unfold mbind at 1. unfold lift at 1.
  unfold mbind at 1. unfold lift at 1.
  unfold mbind at 1. rewrite render_stage_run.
  destruct (document method images) as [doc|e] eqn:Hdoc.
  - unfold mbind at 1. rewrite (throttle_run _ _ _ Hp).
    unfold mbind at 1. unfold emit, lift. simpl.
    rewrite (scans_all _ _ _ Hdoc).
    destruct (chain_ainvoke _ _ _ _ _); unfold ret, logs; simpl;
      repeat rewrite <- app_assoc; reflexivity.
  - unfold logs; simpl. repeat rewrite <- app_assoc. reflexivity.
Qed.

(** A call for an unknown model raises before anything is rendered. *)
Lemma ainvoke_die_unknown (model method : string) (parser : Parser)
    (images : Images) (s : state) (e : exn) :
  get_provider model = Raise e ->
  ainvoke_die model method parser images s =
    match invoke_semaphore s with
    | None => (Raise e, s)
    | Some sem => (Raise e, logs [EvAcquire sem; EvRelease sem] s)
    end.
Proof.
  intros Hp. unfold ainvoke_die. unfold mbind at 1.
  rewrite get_semaphore_run, Hp.
  destruct (invoke_semaphore s) as [sem|]; [|reflexivity].
  unfold mbind, async_with, create_llm, lift. rewrite Hp. simpl.
  unfold logs. simpl. now rewrite <- app_assoc.
Qed.

End runs.

(** * The concurrency gate *)

Section gate.
Context `{Collaborators}.
Local Open Scope list_scope.

Lemma gate_invariant_initial (fs : gmap string string) :
  gate_invariant (initial_state fs).
Proof. left. split; reflexivity. Qed.

Lemma get_semaphore_invariant (model : string) (s : state) :
  gate_invariant s -> gate_invariant (snd (get_semaphore model s)).
Proof.
  intros Hinv. rewrite get_semaphore_run.
  destruct Hinv as [[Hnone Hheap]|[Hsome Hheap]].
  - rewrite Hnone. destruct (get_provider model); simpl.
    + right. rewrite Hheap. simpl. eauto.
    + left. auto.
  - rewrite Hsome. simpl. right. auto.
Qed.

Lemma get_semaphore_calls_invariant (models : list string) :
  forall s, gate_invariant s ->
            gate_invariant (snd (get_semaphore_calls models s)).
Proof.
  induction models as [|model models IH]; intros s Hinv; simpl; [easy|].
  pose proof (get_semaphore_invariant model s Hinv) as Hinv'.
  destruct (get_semaphore model s) as [r s']. simpl in Hinv'.
  specialize (IH s' Hinv').
  destruct (get_semaphore_calls models s') as [rs s'']. exact IH.
Qed.

(** Once the global is set, every call returns it and changes nothing. *)
Lemma get_semaphore_calls_reuse (models : list string) :
  forall s sem, invoke_semaphore s = Some sem ->
    get_semaphore_calls models s = (map (fun _ => Ok sem) models, s).
Proof.
  induction models as [|model models IH]; intros s sem Hsome; simpl; [easy|].
  rewrite get_semaphore_run, Hsome. now rewrite (IH s sem Hsome).
Qed.

End gate.

(** ** C1 *)

(** C1. The gate is created at most once per process. A call of
    [get_semaphore] that finds the global unset constructs a new semaphore,
    with 1 permit when the model resolves to anthropic and 5 permits for
    every other recognised provider, and stores it in the global. A call
    that finds the global set returns that same object and leaves the
    state as it is, whatever model it is given. So in a process started by
    a call for a recognised model every call returns the first call's
    object, whose permit count is the one of the first model, and no
    sequence of calls leaves more than one semaphore on the heap. *)
Theorem get_semaphore_created_once (C : Collaborators) :
  (forall (model provider : string) (s : state),
     invoke_semaphore s = None -> get_provider model = Ok provider ->
     get_semaphore model s =
       (Ok (length (heap s)),
        {| invoke_semaphore := Some (length (heap s));
           heap := (heap s ++
             [{| sem_value :=
                   if String.eqb provider "anthropic" then 1 else 5 |}])%list;
           files := files s; trace := trace s |})) /\
  (forall (model : string) (sem : nat) (s : state),
     invoke_semaphore s = Some sem ->
     get_semaphore model s = (Ok sem, s)) /\
  (forall (model provider : string) (later : list string)
          (fs : gmap string string),
     get_provider model = Ok provider ->
     let run := get_semaphore_calls (model :: later) (initial_state fs) in
     fst run = map (fun _ => Ok 0) (model :: later) /\
     invoke_semaphore (snd run) = Some 0 /\
     heap (snd run) =
       [{| sem_value := if String.eqb provider "anthropic" then 1 else 5 |}]) /\
  (forall (models : list string) (fs : gmap string string),
     length (heap (snd (get_semaphore_calls models (initial_state fs)))) <= 1).
Proof.
  split; [|split; [|split]].
  - intros model provider s Hnone Hp.
    now rewrite get_semaphore_run, Hnone, Hp.
  - intros model sem s Hsome. now rewrite get_semaphore_run, Hsome.
  - intros model provider later fs Hp. simpl.
    rewrite get_semaphore_run, Hp. simpl.
    rewrite (get_semaphore_calls_reuse later _ 0); [auto|reflexivity].
  - intros models fs.
    destruct (get_semaphore_calls_invariant models _
                (gate_invariant_initial fs)) as [[_ ->]|[_ [sem ->]]];
      simpl; lia.
Qed.

(** * The renderer *)

(** ** C8 *)

(** C8. For every scan the OCR engine returns, [doc_to_prompt] with method
    "simple" returns the texts of the fragments joined with single spaces,
    in the order of the scan; the image is scanned once. *)
Theorem doc_to_prompt_simple (C : Collaborators) (img : Image) (scan : Scan)
    (s : state) :
  ocr img = Ok scan ->
  doc_to_prompt img "simple" s =
    (Ok (join " " (map text scan)), logs [EvOcr img] s).
Proof.
  intros Hocr. rewrite doc_to_prompt_run. f_equal.
  unfold page_text, doc_to_prompt, mbind, lift, emit. simpl.
  now rewrite Hocr.
Qed.

(** ** C6 *)

(** C6. When the scan succeeds, [doc_to_prompt] raises the
    missing-dependency error for method "sft" when the sft formatter is not
    installed, and raises the unknown-method error for every method other
    than "simple", "latin" and "sft". For the three recognised methods,
    with sft installed, neither raise is reached: the outcome is the joined
    text, what the latin formatter returns, and what the sft formatter
    returns. *)
Theorem doc_to_prompt_method_errors (C : Collaborators) (img : Image)
    (scan : Scan) (method : string) (s : state) :
  ocr img = Ok scan ->
  (method = "sft" -> sft = None ->
   fst (doc_to_prompt img method s) = Raise MissingDependency) /\
  (method <> "simple" -> method <> "latin" -> method <> "sft" ->
   fst (doc_to_prompt img method s) = Raise (UnknownMethod method)) /\
  (method = "simple" ->
   fst (doc_to_prompt img method s) = Ok (join " " (map text scan))) /\
  (method = "latin" ->
   fst (doc_to_prompt img method s) = latin_to_prompt scan (size img)) /\
  (forall sft_to_prompt, method = "sft" -> sft = Some sft_to_prompt ->
   fst (doc_to_prompt img method s) = sft_to_prompt scan img).
Proof.
  intros Hocr. rewrite doc_to_prompt_run. simpl.
  unfold page_text, doc_to_prompt, mbind, lift, emit, raise, ret. simpl.
  rewrite Hocr. repeat split.
  - intros -> Hsft. simpl. now rewrite Hsft.
  - intros H1%String.eqb_neq H2%String.eqb_neq H3%String.eqb_neq.
    now rewrite H1, H2, H3.
  - now intros ->.
  - now intros ->.
  - intros f -> Hsft. simpl. now rewrite Hsft.
Qed.

(** * The orchestrator *)

Section orchestrator.
Context `{Collaborators}.
Local Open Scope list_scope.

Lemma page_texts_Forall2 (method : string) (imgs : list Image)
    (texts : list string) :
  Forall2 (fun img t => page_text method img = Ok t) imgs texts ->
  page_texts method imgs = Ok texts.
Proof.
  induction 1 as [|img t imgs texts Himg _ IH]; simpl; [reflexivity|].
  now rewrite Himg, IH.
Qed.

(** For a recognised model the gate opens and leaves the trace alone. *)
Lemma get_semaphore_recognised (model provider : string) (s : state) :
  get_provider model = Ok provider ->
  exists sem s1, get_semaphore model s = (Ok sem, s1) /\ trace s1 = trace s.
Proof.
  intros Hp. rewrite get_semaphore_run, Hp.
  destruct (invoke_semaphore s); eauto.
Qed.

Lemma delays_app (tr1 tr2 : list event) :
  delays (tr1 ++ tr2) = delays tr1 ++ delays tr2.
Proof. apply filter_app. Qed.

Lemma delays_scans (imgs : list Image) : delays (map EvOcr imgs) = [].
Proof. induction imgs; simpl; auto. Qed.

Lemma delays_delay_events (provider : string) :
  delays (delay_events provider) = delay_events provider.
Proof. unfold delay_events. now destruct (String.eqb provider "anthropic"). Qed.

(** A trace of gate and scan events has no invocation. *)
Lemma scans_do_not_invoke (sem : nat) (imgs : list Image) :
  ~ invokes ([EvAcquire sem] ++ map EvOcr imgs ++ [EvRelease sem]).
Proof.
  intros (prompt & llm & doc & fi & Hin). simpl in Hin.
  destruct Hin as [Hin|Hin]; [discriminate|].
  apply in_app_or in Hin. destruct Hin as [Hin|[Hin|[]]]; [|discriminate].
  apply in_map_iff in Hin. destruct Hin as (img & Himg & _). discriminate.
Qed.

(** The delays of a trace that reaches the invocation. *)
Lemma delays_of_call (sem : nat) (imgs : list Image) (provider : string)
    (ev : event) :
  is_delay ev = false ->
  delays ([EvAcquire sem] ++ map EvOcr imgs ++ delay_events provider ++
          [ev; EvRelease sem]) = delay_events provider.
Proof.
  intros Hev. rewrite !delays_app, delays_scans, delays_delay_events.
  destruct ev; try discriminate; simpl; now rewrite app_nil_r.
Qed.

End orchestrator.

(** ** C3 *)

(** C3. In a call for a recognised model whose pages all render, a list of
    images is scanned in its order and the document handed to the model is
    the page blocks joined with a newline, the block of the n-th page being
    "## Page n", a newline, the text of the page and a newline, with n
    counted from 1, so that a blank line separates two blocks. A single
    image is scanned and its text is the document, without a page header. *)
Theorem ainvoke_die_document (C : Collaborators) (model provider : string)
    (method : string) (parser : Parser) (s : state) :
  get_provider model = Ok provider ->
  (forall (imgs : list Image) (texts : list string),
     Forall2 (fun img t => page_text method img = Ok t) imgs texts ->
     exists sem prompt llm,
       trace (snd (ainvoke_die model method parser (ImageList imgs) s)) =
         (trace s ++ [EvAcquire sem] ++ map EvOcr imgs ++
          delay_events provider ++
          [EvInvoke prompt llm (join nl (page_blocks_from 1 texts))
             (get_format_instructions parser);
           EvRelease sem])%list) /\
  (forall (img : Image) (t : string),
     page_text method img = Ok t ->
     exists sem prompt llm,
       trace (snd (ainvoke_die model method parser (SingleImage img) s)) =
         (trace s ++ [EvAcquire sem] ++ [EvOcr img] ++
          delay_events provider ++
          [EvInvoke prompt llm t (get_format_instructions parser);
           EvRelease sem])%list) /\
  (forall t1 t2 : string,
     join nl (page_blocks_from 1 [t1; t2]) =
       "## Page 1" +:+ nl +:+ t1 +:+ nl +:+ nl +:+
       "## Page 2" +:+ nl +:+ t2 +:+ nl).
Proof.
  intros Hp.
  destruct (get_semaphore_recognised model provider s Hp)
    as (sem & s1 & Hsem & Htr).
  repeat split.
  - intros imgs texts Htexts%page_texts_Forall2.
    destruct (ainvoke_die_run model method parser (ImageList imgs)
                s s1 provider sem Hp Hsem) as (llm & prompt & _ & _ & _ & ->).
    simpl. rewrite Htexts. simpl. rewrite Htr. eauto.
  - intros img t Ht.
    destruct (ainvoke_die_run model method parser (SingleImage img)
                s s1 provider sem Hp Hsem) as (llm & prompt & _ & _ & _ & ->).
    simpl. rewrite Ht. simpl. rewrite Htr. eauto.
  - intros t1 t2. simpl. unfold page_block. simpl.
    rewrite !append_assoc. reflexivity.
Qed.

(** ** C10 *)

(** C10. In a call for a recognised model with the empty list of images,
    whatever the method, the page loop returns no block, the document is
    the empty string, nothing is scanned, and the chain is invoked with
    the empty document: the outcome of the call is the outcome of the
    chain. *)
Theorem ainvoke_die_empty_list (C : Collaborators) (model provider : string)
    (method : string) (parser : Parser) (s : state) :
  get_provider model = Ok provider ->
  render_pages method (enumerate []) [] s = (Ok [], s) /\
  join nl [] = EmptyString /\
  exists sem prompt llm,
    create_llm model = Ok llm /\ create_die_prompt model = Ok prompt /\
    fst (ainvoke_die model method parser (ImageList []) s) =
      Py.bind (chain_ainvoke prompt llm parser EmptyString
                 (get_format_instructions parser))
        (fun output => Ok (dict output)) /\
    trace (snd (ainvoke_die model method parser (ImageList []) s)) =
      (trace s ++ [EvAcquire sem] ++ delay_events provider ++
       [EvInvoke prompt llm EmptyString (get_format_instructions parser);
        EvRelease sem])%list.
Proof.
  intros Hp. repeat split.
  destruct (get_semaphore_recognised model provider s Hp)
    as (sem & s1 & Hsem & Htr).
  destruct (ainvoke_die_run model method parser (ImageList [])
              s s1 provider sem Hp Hsem) as (llm & prompt & Hllm & _ & Hpr & ->).
  exists sem, prompt, llm. simpl. rewrite Htr. auto.
Qed.

(** The delays of a call, whatever becomes of it. *)
Lemma ainvoke_die_delays (C : Collaborators) (model method : string)
    (parser : Parser) (images : Images) (s : state) :
  exists tr : list event,
    trace (snd (ainvoke_die model method parser images s)) =
      (trace s ++ tr)%list /\
    length (delays tr) <= 1 /\
    (forall ev, In ev (delays tr) ->
       ev = EvSleep 10 /\ get_provider model = Ok "anthropic") /\
    (invokes tr ->
     exists provider sem prompt llm doc,
       get_provider model = Ok provider /\
       tr = ([EvAcquire sem] ++ map EvOcr (pages_of images) ++
             delay_events provider ++
             [EvInvoke prompt llm doc (get_format_instructions parser);
              EvRelease sem])%list /\
       (provider = "anthropic" -> delays tr = [EvSleep 10]) /\
       (provider <> "anthropic" -> delays tr = [])).
Proof.
  destruct (get_provider model) as [provider|e] eqn:Hp.
  - destruct (get_semaphore_recognised model provider s Hp)
      as (sem & s1 & Hsem & Htr).
    destruct (ainvoke_die_run model method parser images
                s s1 provider sem Hp Hsem) as (llm & prompt & _ & _ & _ & ->).
    destruct (document method images) as [doc|e]; simpl.
    + eexists. split; [rewrite Htr; reflexivity|].
      pose proof (delays_of_call sem (pages_of images) provider
                    (EvInvoke prompt llm doc (get_format_instructions parser))
                    eq_refl) as Hd.
      simpl in Hd. rewrite Hd. unfold delay_events.
      destruct (String.eqb_spec provider "anthropic") as [->|Hne].
      * split; [simpl; lia|]. split.
        -- intros ev [<-|[]]. auto.
        -- intros _. exists "anthropic", sem, prompt, llm, doc.
           split; [reflexivity|]. split; [reflexivity|].
           split; [reflexivity|congruence].
      * split; [simpl; lia|]. split.
        -- intros ev [].
        -- intros _. exists provider, sem, prompt, llm, doc.
           split; [reflexivity|].
           apply String.eqb_neq in Hne. rewrite Hne.
           split; [reflexivity|].
           apply String.eqb_neq in Hne. split; [congruence|reflexivity].
    + eexists. split; [rewrite Htr; reflexivity|].
      assert (delays ([EvAcquire sem] ++
                map EvOcr (scans method images) ++ [EvRelease sem]) = [])
        as Hd.
      { rewrite !delays_app, delays_scans. reflexivity. }
      simpl in Hd. rewrite Hd.
      split; [simpl; lia|]. split.
      * intros ev [].
      * intros Hinv. now apply (scans_do_not_invoke sem) in Hinv.
  - rewrite (ainvoke_die_unknown model method parser images s e Hp).
    destruct (invoke_semaphore s) as [sem|]; simpl.
    + exists [EvAcquire sem; EvRelease sem].
      split; [reflexivity|]. split; [simpl; lia|]. split.
      * intros ev [].
      * intros Hinv. now apply (scans_do_not_invoke sem []) in Hinv.
    + exists []. rewrite app_nil_r.
      split; [reflexivity|]. split; [simpl; lia|]. split.
      * intros ev [].
      * intros (? & ? & ? & ? & []).
Qed.

(** ** C4 *)

(** C4. Every call of [ainvoke_die] adds events to the trace, among them
    at most one delay; a delay lasts 10 and is applied only when the model
    resolves to anthropic; and in every call that gets to invoke the model
    the events are: the gate is entered, every page is scanned, the delay
    is applied once exactly when the provider is anthropic and not at all
    otherwise, the model is invoked, the gate is left. The number of
    delays does not depend on the number of pages. *)
Theorem throttle_once_per_call (C : Collaborators) (model method : string)
    (parser : Parser) (images : Images) (s : state) :
  (exists tr : list event,
     trace (snd (ainvoke_die model method parser images s)) =
       (trace s ++ tr)%list) /\
  (forall tr : list event,
     trace (snd (ainvoke_die model method parser images s)) =
       (trace s ++ tr)%list ->
     length (delays tr) <= 1 /\
     (forall ev, In ev (delays tr) ->
        ev = EvSleep 10 /\ get_provider model = Ok "anthropic") /\
     (invokes tr ->
      exists provider sem prompt llm doc,
        get_provider model = Ok provider /\
        tr = ([EvAcquire sem] ++ map EvOcr (pages_of images) ++
              delay_events provider ++
              [EvInvoke prompt llm doc (get_format_instructions parser);
               EvRelease sem])%list /\
        (provider = "anthropic" -> delays tr = [EvSleep 10]) /\
        (provider <> "anthropic" -> delays tr = []))).
Proof.
  destruct (ainvoke_die_delays C model method parser images s)
    as (tr & Htr & Hrest).
  split; [eauto|].
  intros tr' Htr'. rewrite Htr in Htr'.
  apply app_inv_head in Htr'. now subst tr'.
Qed.

(** * The result log *)

(** Rounding to the nearest integer, ties to even, is off by at most one
    half. *)
Lemma round_half_even_nearest (a b : Z) :
  (0 < b)%Z ->
  (Z.abs (2 * a - 2 * b * PyFloat.round_half_even a b) <= b)%Z.
Proof.
  intros Hb. unfold PyFloat.round_half_even.
  pose proof (Z.div_mod a b ltac:(lia)) as Hdm.
  pose proof (Z.mod_pos_bound a b Hb) as Hm.
  destruct (Z.compare_spec (2 * (a mod b)) b) as [Heq|Hlt|Hgt];
    [destruct (Z.even (a / b))|..]; lia.
Qed.

(** [round(x, 3)] is the double nearest to a multiple of 1/1000 that is
    within half of 1/1000 of the exact value of [x]. *)
Lemma round_three_decimals (sign : bool) (m : positive) (e : Z) :
  exists n : Z,
    PyFloat.round (S754_finite sign m e) 3 =
      (if sign then SFopp (PyFloat.nearest n 1000)
       else PyFloat.nearest n 1000) /\
    ((0 <= e)%Z -> n = (Zpos m * 2 ^ e * 1000)%Z) /\
    ((e < 0)%Z ->
     (Z.abs (2 * (Zpos m * 1000) - 2 * 2 ^ (- e) * n) <= 2 ^ (- e))%Z).
Proof.
  unfold PyFloat.round.
  change (10 ^ Z.of_nat 3)%Z with 1000%Z.
  destruct (Z.leb_spec 0 e) as [Hle|Hlt].
  - eexists. split; [reflexivity|]. split; [reflexivity|lia].
  - eexists. split; [reflexivity|]. split; [lia|].
    intros _. apply round_half_even_nearest. apply Z.pow_pos_nonneg; lia.
Qed.

(** The float model on values whose Python output is known. *)
Example float_examples :
  PyFloat.of_decimal 8 (-1) = S754_finite false 7205759403792794 (-53) /\
  PyFloat.repr (PyFloat.fadd (PyFloat.of_decimal 1 (-1))
                  (PyFloat.of_decimal 2 (-1))) = "0.30000000000000004" /\
  PyFloat.repr (PyFloat.fdiv (PyFloat.of_int 1) (PyFloat.of_int 3)) =
    "0.3333333333333333" /\
  PyFloat.repr (PyFloat.of_decimal 1 16) = "1e+16" /\
  PyFloat.repr (PyFloat.of_decimal 1 (-5)) = "1e-05" /\
  PyFloat.repr (PyFloat.of_int (-1234)) = "-1234.0" /\
  PyFloat.repr (PyFloat.round (PyFloat.of_decimal 2675 (-3)) 2) = "2.67" /\
  PyFloat.repr (PyFloat.round (PyFloat.of_decimal 625 (-4)) 3) = "0.062" /\
  PyFloat.repr (PyFloat.round (PyFloat.of_decimal 5 (-4)) 3) = "0.001" /\
  PyFloat.repr (PyFloat.round (PyFloat.fdiv (PyFloat.of_int 2)
                                 (PyFloat.of_int 3)) 3) = "0.667".
Proof. vm_compute. repeat split. Qed.

(** The two ways to sum, on lists whose Python output is known: the
    interpreters agree on 0.8 + 1.0 and differ on the four scores. *)
Example sum_examples :
  PyFloat.repr (PyFloat.sum false
    [PyFloat.of_decimal 1 (-1); PyFloat.of_decimal 2 (-1);
     PyFloat.of_decimal 3 (-1)]) = "0.6000000000000001" /\
  PyFloat.repr (PyFloat.sum true
    [PyFloat.of_decimal 1 (-1); PyFloat.of_decimal 2 (-1);
     PyFloat.of_decimal 3 (-1)]) = "0.6" /\
  PyFloat.repr (PyFloat.sum false
    [PyFloat.of_decimal 8 (-1); PyFloat.of_decimal 1 (-2);
     PyFloat.of_decimal 9 (-1); PyFloat.of_decimal 34 (-2)]) = "2.05" /\
  PyFloat.repr (PyFloat.sum true
    [PyFloat.of_decimal 8 (-1); PyFloat.of_decimal 1 (-2);
     PyFloat.of_decimal 9 (-1); PyFloat.of_decimal 34 (-2)]) =
    "2.0500000000000003" /\
  PyFloat.sum false [PyFloat.of_decimal 8 (-1); PyFloat.of_decimal 10 (-1)] =
  PyFloat.sum true [PyFloat.of_decimal 8 (-1); PyFloat.of_decimal 10 (-1)].
Proof. vm_compute. repeat split. Qed.

(** [round(x, ndigits)] rounds to [ndigits] decimals. *)
Lemma round_rounded_to_decimals (x : PyFloat.float) (ndigits : nat) :
  rounded_to_decimals ndigits x (PyFloat.round x ndigits).
Proof.
  destruct x as [sign| sign| |sign m e]; try reflexivity.
  unfold rounded_to_decimals, PyFloat.round.
  set (scale := (10 ^ Z.of_nat ndigits)%Z).
  destruct (Z.leb_spec 0 e) as [Hle|Hlt].
  - exists (Zpos m * 2 ^ e * scale)%Z. split; [|reflexivity].
    rewrite Z.max_r by lia. rewrite Z.max_l by lia.
    change (2 ^ 0)%Z with 1%Z.
    replace (2 * (Zpos m * scale * 2 ^ e) -
             2 * (Zpos m * 2 ^ e * scale) * 1)%Z with 0%Z by ring.
    simpl. lia.
  - exists (PyFloat.round_half_even (Zpos m * scale) (2 ^ (- e)))%Z.
    split; [|reflexivity].
    rewrite Z.max_l by lia. rewrite Z.max_r by lia.
    change (2 ^ 0)%Z with 1%Z.
    assert (0 < 2 ^ (- e))%Z as Hpos by (apply Z.pow_pos_nonneg; lia).
    pose proof (round_half_even_nearest (Zpos m * scale) (2 ^ (- e)) Hpos)
      as Hnear.
    replace (2 * (Zpos m * scale * 1) -
             2 * PyFloat.round_half_even (Zpos m * scale) (2 ^ (- e)) *
             2 ^ (- e))%Z
      with (2 * (Zpos m * scale) -
            2 * 2 ^ (- e) *
            PyFloat.round_half_even (Zpos m * scale) (2 ^ (- e)))%Z by ring.
    exact Hnear.
Qed.

(** [log_result] on the state. *)
Lemma log_result_run `{Collaborators} (dataset model method : string)
    (anlss : list PyFloat.float) (s : state) :
  log_result dataset model method anlss s =
    (Ok tt,
     {| invoke_semaphore := invoke_semaphore s; heap := heap s;
        files :=
          <["results.txt" :=
              default EmptyString (files s !! "results.txt") +:+
              result_line dataset model method (rounded_mean anlss)]>
            (files s);
        trace := trace s |}).
Proof.
  unfold log_result, append_file, result_line, rounded_mean.
  destruct anlss; reflexivity.
Qed.

(** The line of a list of scores, on either interpreter. *)
Ltac line_by_evaluation :=
  unfold rounded_mean; destruct compensated_sum; vm_compute; reflexivity.

(** ** C7 *)

(** C7. [log_result] returns after one write: the file "results.txt" holds
    what it held, followed by the one line made of the dataset, the model,
    the method and "ANLS*: " with the mean, separated by " | " and ended by
    a newline; no other file and nothing else of the state changes. The
    mean is 0.0 for the empty list and otherwise the float sum of the
    scores, as the interpreter's [sum] adds them, over their number,
    rounded to 3 decimals: the double nearest to a multiple of 1/1000 that
    is within half of 1/1000 of the quotient. No scores give "ANLS*: 0.0"
    and the scores 0.8 and 1.0 give "ANLS*: 0.9"; the scores 1.0, 0.0 and
    0.0, of mean 0.3333333333333333, give "ANLS*: 0.333", and the scores
    0.5, 0.7 and 0.8 give "ANLS*: 0.667". *)
Theorem log_result_appends_line (C : Collaborators)
    (dataset model method : string) (anlss : list PyFloat.float)
    (s : state) :
  log_result dataset model method anlss s =
    (Ok tt,
     {| invoke_semaphore := invoke_semaphore s; heap := heap s;
        files :=
          <["results.txt" :=
              default EmptyString (files s !! "results.txt") +:+
              result_line dataset model method (rounded_mean anlss)]>
            (files s);
        trace := trace s |}) /\
  rounded_mean [] = PyFloat.zero /\
  result_line "ds" "m" "simple" (rounded_mean []) =
    "ds | m | simple | ANLS*: 0.0" +:+ nl /\
  result_line "ds" "m" "simple"
    (rounded_mean [PyFloat.of_decimal 8 (-1); PyFloat.of_decimal 10 (-1)]) =
    "ds | m | simple | ANLS*: 0.9" +:+ nl /\
  match anlss with
  | [] => rounded_mean anlss = PyFloat.zero
  | _ :: _ =>
      rounded_to_decimals 3
        (PyFloat.fdiv (PyFloat.sum compensated_sum anlss)
           (PyFloat.of_int (Z.of_nat (length anlss))))
        (rounded_mean anlss)
  end /\
  files (snd (log_result "ds" "m" "simple"
                [PyFloat.of_decimal 10 (-1); PyFloat.of_decimal 0 0;
                 PyFloat.of_decimal 0 0] s)) !! "results.txt" =
    Some (default EmptyString (files s !! "results.txt") +:+
          "ds | m | simple | ANLS*: 0.333" +:+ nl) /\
  files (snd (log_result "ds" "m" "simple"
                [PyFloat.of_decimal 5 (-1); PyFloat.of_decimal 7 (-1);
                 PyFloat.of_decimal 8 (-1)] s)) !! "results.txt" =
    Some (default EmptyString (files s !! "results.txt") +:+
          "ds | m | simple | ANLS*: 0.667" +:+ nl).
Proof.
  split; [apply log_result_run|].
  split; [reflexivity|].
  split; [reflexivity|].
  split; [line_by_evaluation|].
  split; [destruct anlss; [reflexivity|apply round_rounded_to_decimals]|].
  split; rewrite log_result_run; cbn [snd files];
    rewrite lookup_insert_eq; do 2 f_equal; line_by_evaluation.
Qed.

(** * The statements at concrete inputs *)

Lemma get_semaphore_created_once_witness :
  @get_semaphore without_sft "claude-3" (initial_state ∅) =
    (Ok 0,
     {| invoke_semaphore := Some 0; heap := [{| sem_value := 1 |}];
        files := ∅; trace := [] |}) /\
  @get_semaphore without_sft "gpt-4"
    {| invoke_semaphore := Some 0; heap := [{| sem_value := 1 |}];
       files := ∅; trace := [] |} =
    (Ok 0,
     {| invoke_semaphore := Some 0; heap := [{| sem_value := 1 |}];
        files := ∅; trace := [] |}) /\
  heap (snd (@get_semaphore_calls without_sft
               ["gemini-pro"; "claude-3"; "llama-2"] (initial_state ∅))) =
    [{| sem_value := 5 |}].
Proof.
  split; [|split].
  - apply (proj1 (get_semaphore_created_once without_sft)
             "claude-3" "anthropic" (initial_state ∅)); reflexivity.
  - apply (proj1 (proj2 (get_semaphore_created_once without_sft))
             "gpt-4" 0); reflexivity.
  - apply (proj1 (proj2 (proj2 (get_semaphore_created_once without_sft)))
             "gemini-pro" "vertexai" ["claude-3"; "llama-2"] ∅).
    reflexivity.
Defined.

Lemma get_provider_by_prefix_witness :
  get_provider "gpt-4-turbo" = Ok "openai" /\
  get_provider "gemini-pro" = Ok "vertexai" /\
  get_provider "mistral-large" = Ok "mistral" /\
  get_provider "claude-3" = Ok "anthropic" /\
  get_provider "llama-2" = Raise (UnknownProvider "llama-2").
Proof.
  split; [|split; [|split; [|split]]].
  - apply (proj1 (get_provider_by_prefix "gpt-4-turbo")).
    exists "-4-turbo". reflexivity.
  - apply (proj1 (proj2 (get_provider_by_prefix "gemini-pro"))).
    exists "-pro". reflexivity.
  - apply (proj1 (proj2 (proj2 (get_provider_by_prefix "mistral-large")))).
    exists "-large". reflexivity.
  - apply (proj1 (proj2 (proj2 (proj2 (get_provider_by_prefix "claude-3"))))).
    exists "-3". reflexivity.
  - apply (proj1 (proj2 (proj2 (proj2 (proj2
             (get_provider_by_prefix "llama-2"))))));
      intros [rest Hrest]; discriminate.
Defined.

Lemma ainvoke_die_document_witness :
  exists sem prompt llm,
    trace (snd (@ainvoke_die without_sft "claude-3" "simple" tt
                  (@ImageList without_sft ([1; 2] : list nat)) (initial_state ∅))) =
      [EvAcquire sem; @EvOcr without_sft 1; @EvOcr without_sft 2; EvSleep 10;
       EvInvoke prompt llm
         ("## Page 1" +:+ nl +:+ "A B" +:+ nl +:+ nl +:+
          "## Page 2" +:+ nl +:+ "C" +:+ nl)
         "Return a json.";
       EvRelease sem].
Proof.
  apply (proj1 (ainvoke_die_document without_sft "claude-3" "anthropic"
                  "simple" tt (initial_state ∅) eq_refl)
           [1; 2] ["A B"; "C"]).
  repeat constructor.
Defined.

Lemma throttle_once_per_call_witness :
  delays (trace (snd (@ainvoke_die without_sft "claude-3" "simple" tt
                        (@ImageList without_sft ([1; 2] : list nat))
                        (initial_state ∅)))) = [EvSleep 10].
Proof.
  destruct (proj2 (throttle_once_per_call without_sft "claude-3" "simple" tt
                     (@ImageList without_sft ([1; 2] : list nat))
                     (initial_state ∅)) _ eq_refl)
    as (_ & _ & Hinv).
  destruct Hinv as (provider & sem & prompt & llm & doc & Hp & _ & Hd & _).
  - exists [("system", sys_prompt0);
            ("human", doc_prompt0 +:+ json_only_instruction)],
           (ChatAnthropic "claude-3-opus-20240229" settings),
           ("## Page 1" +:+ nl +:+ "A B" +:+ nl +:+ nl +:+
            "## Page 2" +:+ nl +:+ "C" +:+ nl),
           "Return a json.".
    right. right. right. right. left. reflexivity.
  - injection Hp as <-. exact (Hd eq_refl).
Defined.

Lemma create_die_prompt_shape_witness :
  create_die_prompt "claude-3" =
    Ok [("system", sys_prompt0);
        ("human", doc_prompt0 +:+ json_only_instruction)] /\
  create_die_prompt "gemini-pro" = Ok [("user", sys_prompt0 +:+ doc_prompt0)] /\
  create_die_prompt "gpt-4" = Ok [("system", sys_prompt0 +:+ doc_prompt0)].
Proof.
  split; [|split].
  - apply (proj1 (create_die_prompt_shape "claude-3" "anthropic" eq_refl)).
    reflexivity.
  - apply (proj1 (proj2
             (create_die_prompt_shape "gemini-pro" "vertexai" eq_refl))).
    discriminate.
  - apply (proj1 (proj2 (create_die_prompt_shape "gpt-4" "openai" eq_refl))).
    discriminate.
Defined.

Lemma doc_to_prompt_method_errors_witness :
  fst (@doc_to_prompt without_sft 1 "sft" (initial_state ∅)) =
    Raise MissingDependency /\
  fst (@doc_to_prompt without_sft 1 "xyz" (initial_state ∅)) =
    Raise (UnknownMethod "xyz") /\
  fst (@doc_to_prompt with_sft 1 "sft" (initial_state ∅)) = Ok "A|B".
Proof.
  split; [|split].
  - apply (proj1 (doc_to_prompt_method_errors without_sft 1 _ "sft"
                    (initial_state ∅) eq_refl)); reflexivity.
  - apply (proj1 (proj2 (doc_to_prompt_method_errors without_sft 1 _ "xyz"
                           (initial_state ∅) eq_refl))); discriminate.
  - apply (proj2 (proj2 (proj2 (proj2
             (doc_to_prompt_method_errors with_sft 1 _ "sft"
                (initial_state ∅) eq_refl)))) _ eq_refl eq_refl).
Defined.

Lemma doc_to_prompt_simple_witness :
  @doc_to_prompt without_sft 1 "simple" (initial_state ∅) =
    (Ok "A B", logs [@EvOcr without_sft 1] (initial_state ∅)).
Proof.
  apply (doc_to_prompt_simple without_sft 1
           [{| text := "A"; bbox := [] |}; {| text := "B"; bbox := [] |}]).
  reflexivity.
Defined.

Lemma create_llm_final_raise_unreachable_witness :
  @create_llm without_sft "gpt-4-turbo" <> Raise (UnknownProviderTag "openai") /\
  @create_llm without_sft "llama-2" <> Raise (UnknownProviderTag "llama-2").
Proof.
  split.
  - apply (proj1 (create_llm_final_raise_unreachable without_sft "gpt-4-turbo")).
  - apply (proj1 (create_llm_final_raise_unreachable without_sft "llama-2")).
Defined.

Lemma ainvoke_die_empty_list_witness :
  exists sem prompt llm,
    trace (snd (@ainvoke_die without_sft "gpt-4" "xyz" tt (@ImageList without_sft [])
                  (initial_state ∅))) =
      [EvAcquire sem;
       EvInvoke prompt llm EmptyString "Return a json.";
       EvRelease sem].
Proof.
  destruct (ainvoke_die_empty_list without_sft "gpt-4" "openai" "xyz" tt
              (initial_state ∅) eq_refl)
    as (_ & _ & sem & prompt & llm & _ & _ & _ & Htr).
  exists sem, prompt, llm. exact Htr.
Defined.

(** * Further properties of the module *)

(** ** The provider resolver *)

Lemma append_empty_r (s : string) : s +:+ EmptyString = s.
Proof.
  induction s as [|a s IH]; [reflexivity|].
  change (String a (s +:+ EmptyString) = String a s). now f_equal.
Qed.

Lemma starts_with_append (s p suffix : string) :
  starts_with s p -> starts_with (s +:+ suffix) p.
Proof.
  intros [rest ->]. exists (rest +:+ suffix). apply append_assoc.
Qed.

(** Whatever follows a recognised model identifier, the provider stays:
    a version or date suffix never changes the provider. *)
Theorem get_provider_suffix (model suffix provider : string) :
  get_provider model = Ok provider ->
  get_provider (model +:+ suffix) = Ok provider.
Proof.
  unfold get_provider.
  destruct (startswith model "gpt") eqn:H1.
  { intros <-. apply startswith_spec in H1.
    apply (starts_with_append _ _ suffix), startswith_spec in H1.
    now rewrite H1. }
  destruct (startswith model "gemini") eqn:H2.
  { intros <-. apply startswith_spec in H2.
    apply (starts_with_append _ _ suffix), startswith_spec in H2.
    rewrite (startswith_exclusive _ "gemini" "gpt"); auto.
    now rewrite H2. }
  destruct (startswith model "mistral") eqn:H3.
  { intros <-. apply startswith_spec in H3.
    apply (starts_with_append _ _ suffix), startswith_spec in H3.
    rewrite (startswith_exclusive _ "mistral" "gpt"); auto.
    rewrite (startswith_exclusive _ "mistral" "gemini"); auto.
    now rewrite H3. }
  destruct (startswith model "claude") eqn:H4; [|discriminate].
  intros <-. apply startswith_spec in H4.
  apply (starts_with_append _ _ suffix), startswith_spec in H4.
  rewrite (startswith_exclusive _ "claude" "gpt"); auto.
  rewrite (startswith_exclusive _ "claude" "gemini"); auto.
  rewrite (startswith_exclusive _ "claude" "mistral"); auto.
  now rewrite H4.
Qed.

(** An unknown model makes every function that asks for the provider
    raise the unknown-model error of [get_provider], and [throttle] raises
    it without a delay. *)
Theorem unknown_model_raises (C : Collaborators) (model : string) (e : exn)
    (s : state) :
  get_provider model = Raise e ->
  e = UnknownProvider model /\
  sys_message model = Raise e /\
  requires_human_message model = Raise e /\
  create_die_prompt model = Raise e /\
  get_parallelism model = Raise e /\
  create_llm model = Raise e /\
  throttle model s = (Raise e, s).
Proof.
  intros Hp. split; [now apply get_provider_raise|].
  unfold sys_message, requires_human_message, create_die_prompt,
    get_parallelism, create_llm, throttle, mbind, lift.
  rewrite Hp. repeat split.
Qed.

(** ** The client factory *)

(** The model name the factory hands to a client resolves to the provider
    of that client: the two aliases are replaced by names of the same
    provider, every other name is passed on as it is, and every client
    gets the temperature 0.0 and nothing else as settings. *)
Theorem create_llm_client (C : Collaborators) (model : string)
    (llm : ChatClient) :
  create_llm model = Ok llm ->
  get_provider (client_model llm) = Ok (client_provider llm) /\
  get_provider model = Ok (client_provider llm) /\
  client_settings llm = [("temperature", PyFloat.zero)] /\
  (model = "gpt-4-turbo" -> client_model llm = "gpt-4-1106-preview") /\
  (model = "claude-3" -> client_model llm = "claude-3-opus-20240229") /\
  (model <> "gpt-4-turbo" -> model <> "claude-3" -> client_model llm = model).
Proof.
  unfold create_llm.
  destruct (get_provider model) as [provider|e] eqn:Hp; [|discriminate].
  simpl.
  destruct (String.eqb_spec model "gpt-4-turbo") as [->|Hgpt].
  { injection Hp as <-. simpl. intros [= <-]. simpl.
    repeat split; congruence. }
  destruct (String.eqb_spec model "claude-3") as [->|Hclaude].
  { injection Hp as <-. simpl. intros [= <-]. simpl.
    repeat split; congruence. }
  provider_cases Hp; simpl; intros [= <-]; simpl;
    repeat split; congruence.
Qed.

(** ** The prompt builder *)

(** Splitting the prompt in two entries moves no text: for every
    recognised model the templates of the entries, one after the other,
    are the system text followed by the document template, followed for
    anthropic by the json-only instruction. *)
Theorem create_die_prompt_text (model provider : string)
    (prompt : PromptSpec) :
  get_provider model = Ok provider ->
  create_die_prompt model = Ok prompt ->
  String.concat EmptyString (map snd prompt) =
    sys_prompt0 +:+ doc_prompt0 +:+
    (if String.eqb provider "anthropic"
     then json_only_instruction else EmptyString).
Proof.
  intros Hp. rewrite (create_die_prompt_recognised model provider Hp).
  intros [= <-]. provider_cases Hp; reflexivity.
Qed.

(** ** The renderer *)

(** The scan comes before the look at the method: every call of
    [doc_to_prompt] scans the image once, also for a method it is about to
    reject, and a scan that raises decides the outcome whatever the method
    is. *)
Theorem doc_to_prompt_scans_first (C : Collaborators) (img : Image)
    (method : string) (s : state) :
  snd (doc_to_prompt img method s) = logs [EvOcr img] s /\
  (forall e, ocr img = Raise e ->
             fst (doc_to_prompt img method s) = Raise e).
Proof.
  rewrite doc_to_prompt_run. split; [reflexivity|].
  intros e Hocr. simpl.
  unfold page_text, doc_to_prompt, mbind, lift, emit. simpl.
  now rewrite Hocr.
Qed.

(** ** The concurrency gate, continued *)

Section gate_extra.
Context `{Collaborators}.
Local Open Scope list_scope.

Lemma get_semaphore_unknown (model : string) (e : exn) (s : state) :
  invoke_semaphore s = None -> get_provider model = Raise e ->
  get_semaphore model s = (Raise e, s).
Proof. intros Hnone Hp. now rewrite get_semaphore_run, Hnone, Hp. Qed.

Lemma get_semaphore_calls_unknown (unknowns later : list string) :
  forall s,
    invoke_semaphore s = None ->
    Forall (fun m => get_provider m = Raise (UnknownProvider m)) unknowns ->
    get_semaphore_calls (unknowns ++ later) s =
      (map (fun m => Raise (UnknownProvider m)) unknowns ++
       fst (get_semaphore_calls later s),
       snd (get_semaphore_calls later s)).
Proof.
  induction unknowns as [|m unknowns IH]; intros s Hnone Hall; simpl.
  - now destruct (get_semaphore_calls later s).
  - inversion Hall as [|? ? Hm Hrest]; subst.
    rewrite (get_semaphore_unknown m _ s Hnone Hm).
    now rewrite (IH s Hnone Hrest).
Qed.

(** For a recognised model the gate opens on the semaphore the global
    holds afterwards, and touches neither the trace nor the files. *)
Lemma get_semaphore_opens (model provider : string) (s : state) :
  get_provider model = Ok provider ->
  exists sem s1,
    get_semaphore model s = (Ok sem, s1) /\
    invoke_semaphore s1 = Some sem /\
    trace s1 = trace s /\ files s1 = files s.
Proof.
  intros Hp. rewrite get_semaphore_run, Hp.
  destruct (invoke_semaphore s) eqn:Hs; eauto 10.
Qed.

Lemma get_semaphore_files (model : string) (s : state) :
  files (snd (get_semaphore model s)) = files s /\
  trace (snd (get_semaphore model s)) = trace s.
Proof.
  rewrite get_semaphore_run. destruct (invoke_semaphore s); [easy|].
  now destruct (get_provider model).
Qed.

End gate_extra.

(** A call for an unknown model that finds the global unset raises and
    creates nothing, so the gate is still to be sized: in a process whose
    first calls are for unknown models, these calls raise, the first call
    for a recognised model creates the semaphore with the permits of its
    provider, and every later call returns that semaphore. *)
Theorem get_semaphore_after_unknown_models (C : Collaborators)
    (unknowns later : list string) (model provider : string)
    (fs : gmap string string) :
  Forall (fun m => get_provider m = Raise (UnknownProvider m)) unknowns ->
  get_provider model = Ok provider ->
  let run :=
    get_semaphore_calls (unknowns ++ model :: later)%list (initial_state fs) in
  fst run =
    (map (fun m => Raise (UnknownProvider m)) unknowns ++
     map (fun _ => Ok 0) (model :: later))%list /\
  invoke_semaphore (snd run) = Some 0 /\
  heap (snd run) =
    [{| sem_value := if String.eqb provider "anthropic" then 1 else 5 |}].
Proof.
  intros Hall Hp. simpl.
  rewrite (get_semaphore_calls_unknown unknowns (model :: later)
             (initial_state fs) eq_refl Hall).
  simpl. rewrite get_semaphore_run, Hp. simpl.
  rewrite (get_semaphore_calls_reuse later _ 0); [auto|reflexivity].
Qed.

(** ** The orchestrator, continued *)

Section orchestrator_extra.
Context `{Collaborators}.
Local Open Scope list_scope.

Lemma gate_events_app (tr1 tr2 : list event) :
  gate_events (tr1 ++ tr2) = gate_events tr1 ++ gate_events tr2.
Proof. apply filter_app. Qed.

Lemma gate_events_scans (imgs : list Image) :
  gate_events (map EvOcr imgs) = [].
Proof. induction imgs; simpl; auto. Qed.

Lemma gate_events_delay_events (provider : string) :
  gate_events (delay_events provider) = [].
Proof. unfold delay_events. now destruct (String.eqb provider "anthropic"). Qed.

Lemma no_gate_events_on (sem : nat) (tr : list event) :
  gate_events tr = [] -> Forall (gate_event_on sem) tr.
Proof.
  induction tr as [|ev tr IH]; [constructor|].
  destruct ev; simpl; try discriminate; intros Hg; constructor; simpl; auto.
Qed.

(** What a call does to the state, whatever becomes of it: the state the
    gate leaves, with more events; either none, when no gate was to be
    had, or an acquire, events that are not gate events, and the release
    of the same semaphore, the one the global holds. *)
Lemma ainvoke_die_effect (model method : string) (parser : Parser)
    (images : Images) (s : state) :
  exists tr : list event,
    snd (ainvoke_die model method parser images s) =
      logs tr (snd (get_semaphore model s)) /\
    ((tr = [] /\ invoke_semaphore (snd (get_semaphore model s)) = None /\
      exists e, fst (ainvoke_die model method parser images s) = Raise e) \/
     (exists sem mid,
        invoke_semaphore (snd (get_semaphore model s)) = Some sem /\
        tr = [EvAcquire sem] ++ mid ++ [EvRelease sem] /\
        gate_events mid = [])).
Proof.
  destruct (get_provider model) as [provider|e] eqn:Hp.
  - destruct (get_semaphore_opens model provider s Hp)
      as (sem & s1 & Hsem & Hglobal & _ & _).
    destruct (ainvoke_die_run model method parser images
                s s1 provider sem Hp Hsem) as (llm & prompt & _ & _ & _ & ->).
    rewrite Hsem. simpl.
    destruct (document method images) as [doc|e]; simpl.
    + eexists. split; [reflexivity|]. right.
      exists sem,
        (map EvOcr (pages_of images) ++ delay_events provider ++
         [EvInvoke prompt llm doc (get_format_instructions parser)]).
      split; [exact Hglobal|].
      split; [now rewrite <- !app_assoc|].
      rewrite !gate_events_app, gate_events_scans, gate_events_delay_events.
      reflexivity.
    + eexists. split; [reflexivity|]. right.
      exists sem, (map EvOcr (scans method images)).
      split; [exact Hglobal|]. split; [reflexivity|].
      apply gate_events_scans.
  - rewrite (ainvoke_die_unknown model method parser images s e Hp).
    rewrite get_semaphore_run, Hp.
    destruct (invoke_semaphore s) as [sem|] eqn:Hs; simpl.
    + eexists. split; [reflexivity|]. right.
      exists sem, []. auto.
    + exists []. split; [now rewrite logs_nil|]. left. eauto.
Qed.

Lemma page_texts_failure (method : string) (before after : list Image)
    (bad : Image) (texts : list string) (e : exn) :
  Forall2 (fun img t => page_text method img = Ok t) before texts ->
  page_text method bad = Raise e ->
  page_texts method (before ++ bad :: after) = Raise e /\
  scanned method (before ++ bad :: after) = before ++ [bad].
Proof.
  intros Hbefore Hbad.
  induction Hbefore as [|img t before texts Himg _ [IH1 IH2]]; simpl.
  - now rewrite Hbad.
  - now rewrite Himg, IH1, IH2.
Qed.

End orchestrator_extra.

(** A call leaves the global and the heap as its [get_semaphore] leaves
    them: the body of the call creates no semaphore and assigns none, so
    once the gate exists, no call for any model replaces or resizes it. *)
Theorem ainvoke_die_frame (C : Collaborators) (model method : string)
    (parser : Parser) (images : Images) (s : state) :
  let s' := snd (ainvoke_die model method parser images s) in
  invoke_semaphore s' = invoke_semaphore (snd (get_semaphore model s)) /\
  heap s' = heap (snd (get_semaphore model s)) /\
  (forall sem, invoke_semaphore s = Some sem ->
               invoke_semaphore s' = Some sem /\ heap s' = heap s).
Proof.
  destruct (ainvoke_die_effect model method parser images s)
    as (tr & Hs' & _).
  simpl. rewrite Hs'. simpl.
  split; [reflexivity|]. split; [reflexivity|].
  intros sem Hsome. rewrite get_semaphore_run, Hsome. auto.
Qed.

(** The permit is given back on every way out: the events of a call are
    either none, when the call raises for want of a gate, or start with
    the acquire and end with the release of the semaphore the global
    holds, with no gate event in between, also when the body raises. *)
Theorem ainvoke_die_gate_balanced (C : Collaborators)
    (model method : string) (parser : Parser) (images : Images)
    (s : state) (tr : list event) :
  trace (snd (ainvoke_die model method parser images s)) =
    (trace s ++ tr)%list ->
  (tr = [] /\
   invoke_semaphore (snd (ainvoke_die model method parser images s)) = None /\
   exists e, fst (ainvoke_die model method parser images s) = Raise e) \/
  (exists sem mid,
     invoke_semaphore (snd (ainvoke_die model method parser images s)) =
       Some sem /\
     tr = ([EvAcquire sem] ++ mid ++ [EvRelease sem])%list /\
     gate_events mid = []).
Proof.
  destruct (ainvoke_die_effect model method parser images s)
    as (tr' & Hs' & Hcases).
  rewrite Hs'. simpl.
  rewrite (proj2 (get_semaphore_files model s)).
  intros Htr%app_inv_head. subst tr'. exact Hcases.
Qed.

(** A page that fails ends the call with its error: the pages before it
    were scanned, it was scanned, no page after it is, no delay is
    applied, the model is not invoked, and the gate is left. *)
Theorem ainvoke_die_page_failure (C : Collaborators)
    (model provider method : string) (parser : Parser) (s : state)
    (before after : list Image) (bad : Image) (texts : list string)
    (e : exn) :
  get_provider model = Ok provider ->
  Forall2 (fun img t => page_text method img = Ok t) before texts ->
  page_text method bad = Raise e ->
  exists sem,
    ainvoke_die model method parser
      (ImageList (before ++ bad :: after)%list) s =
      (Raise e,
       logs ([EvAcquire sem] ++ map EvOcr (before ++ [bad]) ++
             [EvRelease sem])%list
         (snd (get_semaphore model s))).
Proof.
  intros Hp Hbefore Hbad.
  destruct (get_semaphore_opens model provider s Hp)
    as (sem & s1 & Hsem & _).
  destruct (ainvoke_die_run model method parser
              (ImageList (before ++ bad :: after)%list)
              s s1 provider sem Hp Hsem) as (llm & prompt & _ & _ & _ & ->).
  destruct (page_texts_failure method before after bad texts e Hbefore Hbad)
    as [Htexts Hscanned].
  simpl. rewrite Htexts, Hscanned, Hsem. simpl. eauto.
Qed.

(** What a call for a recognised model returns: the error of the
    rendering when a page fails, else the error of the chain when the
    chain fails, else the [dict()] of what the chain returns; the client
    and the prompt of the chain are the ones the factory and the prompt
    builder return for the model. *)
Theorem ainvoke_die_outcome (C : Collaborators)
    (model provider method : string) (parser : Parser) (images : Images)
    (s : state) :
  get_provider model = Ok provider ->
  exists llm prompt,
    create_llm model = Ok llm /\ create_die_prompt model = Ok prompt /\
    fst (ainvoke_die model method parser images s) =
      Py.bind (document method images) (fun doc =>
      Py.bind (chain_ainvoke prompt llm parser doc
                 (get_format_instructions parser)) (fun output =>
      Ok (dict output))).
Proof.
  intros Hp.
  destruct (get_semaphore_opens model provider s Hp)
    as (sem & s1 & Hsem & _).
  destruct (ainvoke_die_run model method parser images
              s s1 provider sem Hp Hsem) as (llm & prompt & Hllm & _ & Hpr & ->).
  exists llm, prompt. split; [exact Hllm|]. split; [exact Hpr|].
  now destruct (document method images).
Qed.

(** A call for an unknown model raises the unknown-model error without a
    scan, a delay or an invocation. Before the gate exists it does
    nothing at all; once the gate exists it takes the permit first and
    gives it back. *)
Theorem ainvoke_die_unknown_model (C : Collaborators)
    (model method : string) (parser : Parser) (images : Images)
    (s : state) (e : exn) :
  get_provider model = Raise e ->
  fst (ainvoke_die model method parser images s) =
    Raise (UnknownProvider model) /\
  (invoke_semaphore s = None ->
   snd (ainvoke_die model method parser images s) = s) /\
  (forall sem, invoke_semaphore s = Some sem ->
   snd (ainvoke_die model method parser images s) =
     logs [EvAcquire sem; EvRelease sem] s).
Proof.
  intros Hp. rewrite (ainvoke_die_unknown model method parser images s e Hp).
  pose proof (get_provider_raise model e Hp) as ->.
  destruct (invoke_semaphore s) as [sem|]; simpl.
  - split; [reflexivity|]. split; [discriminate|]. now intros ? [= <-].
  - split; [reflexivity|]. split; [reflexivity|]. discriminate.
Qed.

(** ** Processes *)

Section processes.
Context `{Collaborators}.
Local Open Scope list_scope.

Lemma ainvoke_die_invariant (model method : string) (parser : Parser)
    (images : Images) (s : state) :
  process_invariant s ->
  process_invariant (snd (ainvoke_die model method parser images s)).
Proof.
  intros (Hgate & Htrace).
  destruct (ainvoke_die_effect model method parser images s)
    as (tr & -> & Hcases).
  pose proof (get_semaphore_invariant model s Hgate) as Hgate1.
  destruct (get_semaphore_files model s) as [Hf Ht].
  split.
  - exact Hgate1.
  - simpl. rewrite Ht. apply Forall_app. split; [exact Htrace|].
    destruct Hcases as [(-> & _)|(sem & mid & Hsome & -> & Hmid)];
      [constructor|].
    assert (sem = 0) as ->.
    { destruct Hgate1 as [[Hnone _]|[Hzero _]]; congruence. }
    apply Forall_app. split; [repeat constructor|].
    apply Forall_app. split; [now apply no_gate_events_on|].
    repeat constructor.
Qed.

Lemma ainvoke_die_calls_invariant (calls : list die_call) :
  forall s, process_invariant s ->
            process_invariant (ainvoke_die_calls calls s).
Proof.
  induction calls as [|c calls IH]; intros s Hinv; simpl; [exact Hinv|].
  apply IH. now apply ainvoke_die_invariant.
Qed.

Lemma ainvoke_die_calls_keep_gate (calls : list die_call) :
  forall s sem,
    invoke_semaphore s = Some sem ->
    invoke_semaphore (ainvoke_die_calls calls s) = Some sem /\
    heap (ainvoke_die_calls calls s) = heap s.
Proof.
  induction calls as [|c calls IH]; intros s sem Hsome; simpl; [auto|].
  destruct (ainvoke_die_effect (call_model c) (call_method c)
              (call_parser c) (call_images c) s) as (tr & Hs' & _).
  rewrite Hs'. rewrite get_semaphore_run, Hsome. simpl.
  destruct (IH (logs tr s) sem Hsome) as [IH1 IH2]. auto.
Qed.

Lemma log_results_file (runs : list logged_run) :
  forall s,
    files (log_results runs s) !! "results.txt" =
      match runs with
      | [] => files s !! "results.txt"
      | _ :: _ =>
          Some (default EmptyString (files s !! "results.txt") +:+
                result_lines runs)
      end /\
    (forall path, path <> "results.txt" ->
       files (log_results runs s) !! path = files s !! path) /\
    invoke_semaphore (log_results runs s) = invoke_semaphore s /\
    heap (log_results runs s) = heap s /\
    trace (log_results runs s) = trace s.
Proof.
  induction runs as [|r runs IH]; intros s; [simpl; auto|].
  cbn [log_results]. rewrite log_result_run. cbn [snd].
  match goal with |- context [log_results runs ?s1] =>
    destruct (IH s1) as (IH1 & IH2 & IH3 & IH4 & IH5) end.
  cbn [files invoke_semaphore heap trace] in IH1, IH2, IH3, IH4, IH5.
  rewrite IH1, IH3, IH4, IH5. split; [|split; [|auto]].
  - rewrite lookup_insert_eq. destruct runs as [|r' runs].
    + cbn [result_lines]. now rewrite append_empty_r.
    + cbn [default from_option id result_lines].
      now rewrite append_assoc.
  - intros path Hpath. rewrite (IH2 path Hpath).
    now rewrite lookup_insert_ne.
Qed.

End processes.

(** All the calls of a process go through one gate: however many calls
    of [ainvoke_die] a process makes, for whatever models, at most one
    semaphore is ever created, and every acquire and release in the trace
    is on that semaphore. *)
Theorem ainvoke_die_calls_one_gate (C : Collaborators)
    (calls : list die_call) (fs : gmap string string) :
  let s := ainvoke_die_calls calls (initial_state fs) in
  length (heap s) <= 1 /\
  Forall (gate_event_on 0) (trace s).
Proof.
  destruct (ainvoke_die_calls_invariant calls (initial_state fs))
    as (Hgate & Htrace).
  { split; [apply gate_invariant_initial|constructor]. }
  simpl. split; [|auto].
  destruct Hgate as [[_ ->]|[_ [sem ->]]]; simpl; lia.
Qed.

(** The first call sizes the gate for the whole process: when the first
    call is for a recognised model, the one semaphore has the permits of
    that model's provider after any number of later calls, whatever
    their models. *)
Theorem ainvoke_die_calls_first_call (C : Collaborators)
    (c : die_call) (later : list die_call) (provider : string)
    (fs : gmap string string) :
  get_provider (call_model c) = Ok provider ->
  let s := ainvoke_die_calls (c :: later) (initial_state fs) in
  invoke_semaphore s = Some 0 /\
  heap s =
    [{| sem_value := if String.eqb provider "anthropic" then 1 else 5 |}].
Proof.
  intros Hp. simpl.
  destruct (ainvoke_die_effect (call_model c) (call_method c)
              (call_parser c) (call_images c) (initial_state fs))
    as (tr & Hs' & _).
  rewrite Hs'. rewrite get_semaphore_run, Hp. simpl.
  match goal with |- context [ainvoke_die_calls later ?s1] =>
    destruct (ainvoke_die_calls_keep_gate later s1 0 eq_refl) as [H1 H2] end.
  rewrite H1, H2. auto.
Qed.

(** The result log only grows: after any runs are logged one after the
    other, "results.txt" holds what it held followed by their lines in the
    order of the runs, a file that was missing is created, every other
    file is as it was, and the rest of the state is untouched. *)
Theorem log_results_append (C : Collaborators) (runs : list logged_run)
    (s : state) :
  (runs <> [] ->
   files (log_results runs s) !! "results.txt" =
     Some (default EmptyString (files s !! "results.txt") +:+
           result_lines runs)) /\
  (forall path, path <> "results.txt" ->
     files (log_results runs s) !! path = files s !! path) /\
  invoke_semaphore (log_results runs s) = invoke_semaphore s /\
  heap (log_results runs s) = heap s /\
  trace (log_results runs s) = trace s.
Proof.
  destruct (log_results_file runs s) as (H1 & H2).
  split; [|exact H2].
  intros Hne. rewrite H1. now destruct runs.
Qed.

(** * The further properties at concrete inputs *)

Lemma get_provider_suffix_witness :
  get_provider ("claude-3" +:+ "-opus-20240229") = Ok "anthropic".
Proof.
  apply (get_provider_suffix "claude-3" "-opus-20240229" "anthropic").
  reflexivity.
Defined.

Lemma unknown_model_raises_witness :
  create_die_prompt "llama-2" = Raise (UnknownProvider "llama-2") /\
  @throttle without_sft "llama-2" (initial_state ∅) =
    (Raise (UnknownProvider "llama-2"), initial_state ∅).
Proof.
  destruct (unknown_model_raises without_sft "llama-2"
              (UnknownProvider "llama-2") (initial_state ∅) eq_refl)
    as (_ & _ & _ & Hprompt & _ & _ & Hthrottle).
  split; [exact Hprompt|exact Hthrottle].
Defined.

Lemma create_llm_client_witness :
  get_provider "gpt-4-1106-preview" = Ok "openai".
Proof.
  exact (proj1 (create_llm_client without_sft "gpt-4-turbo"
                  (ChatOpenAI "gpt-4-1106-preview"
                     [("temperature", PyFloat.zero)])
                  eq_refl)).
Defined.

Lemma create_die_prompt_text_witness :
  String.concat EmptyString
    (map snd [("system", sys_prompt0);
              ("human", doc_prompt0 +:+ json_only_instruction)]) =
    sys_prompt0 +:+ doc_prompt0 +:+ json_only_instruction.
Proof.
  exact (create_die_prompt_text "claude-3" "anthropic"
           [("system", sys_prompt0);
            ("human", doc_prompt0 +:+ json_only_instruction)]
           eq_refl eq_refl).
Defined.

Lemma doc_to_prompt_scans_first_witness :
  fst (@doc_to_prompt without_sft 0 "xyz" (initial_state ∅)) =
    Raise (Exception "OCR failed").
Proof.
  apply (proj2 (doc_to_prompt_scans_first without_sft 0 "xyz"
                  (initial_state ∅))).
  reflexivity.
Defined.

Lemma get_semaphore_after_unknown_models_witness :
  heap (snd (@get_semaphore_calls without_sft
               ["llama-2"; "claude-3"; "gpt-4"] (initial_state ∅))) =
    [{| sem_value := 1 |}].
Proof.
  apply (get_semaphore_after_unknown_models without_sft
           ["llama-2"] ["gpt-4"] "claude-3" "anthropic" ∅).
  - repeat constructor.
  - reflexivity.
Defined.

Lemma ainvoke_die_frame_witness :
  heap (snd (@ainvoke_die without_sft "claude-3" "simple" tt
               (@SingleImage without_sft 1)
               {| invoke_semaphore := Some 0;
                  heap := [{| sem_value := 5 |}];
                  files := ∅; trace := [] |})) =
    [{| sem_value := 5 |}].
Proof.
  apply (proj2 (proj2
           (ainvoke_die_frame without_sft "claude-3" "simple" tt
              (@SingleImage without_sft 1)
              {| invoke_semaphore := Some 0;
                 heap := [{| sem_value := 5 |}];
                 files := ∅; trace := [] |})) 0 eq_refl).
Defined.

Lemma ainvoke_die_gate_balanced_witness :
  let run :=
    @ainvoke_die without_sft "claude-3" "xyz" tt
      (@ImageList without_sft ([1; 2] : list nat)) (initial_state ∅) in
  (trace (snd run) = [] /\ invoke_semaphore (snd run) = None /\
   exists e, fst run = Raise e) \/
  (exists sem mid,
     invoke_semaphore (snd run) = Some sem /\
     trace (snd run) = ([EvAcquire sem] ++ mid ++ [EvRelease sem])%list /\
     gate_events mid = []).
Proof.
  exact (ainvoke_die_gate_balanced without_sft "claude-3" "xyz" tt
           (@ImageList without_sft ([1; 2] : list nat)) (initial_state ∅)
           _ eq_refl).
Defined.

Lemma ainvoke_die_page_failure_witness :
  exists sem,
    @ainvoke_die without_sft "gpt-4" "simple" tt
      (@ImageList without_sft ([1; 0; 2] : list nat)) (initial_state ∅) =
      (Raise (Exception "OCR failed"),
       logs [EvAcquire sem; @EvOcr without_sft 1; @EvOcr without_sft 0;
             EvRelease sem]
         (snd (@get_semaphore without_sft "gpt-4" (initial_state ∅)))).
Proof.
  apply (ainvoke_die_page_failure without_sft "gpt-4" "openai" "simple" tt
           (initial_state ∅) [1] [2] 0 ["A B"] (Exception "OCR failed")
           eq_refl).
  - repeat constructor.
  - reflexivity.
Defined.

Lemma ainvoke_die_outcome_witness :
  exists llm prompt,
    @create_llm without_sft "gpt-4" = Ok llm /\
    create_die_prompt "gpt-4" = Ok prompt /\
    fst (@ainvoke_die without_sft "gpt-4" "xyz" tt
           (@SingleImage without_sft 1) (initial_state ∅)) =
      Raise (UnknownMethod "xyz").
Proof.
  exact (ainvoke_die_outcome without_sft "gpt-4" "openai" "xyz" tt
           (@SingleImage without_sft 1) (initial_state ∅) eq_refl).
Defined.

Lemma ainvoke_die_unknown_model_witness :
  fst (@ainvoke_die without_sft "llama-2" "simple" tt
         (@SingleImage without_sft 1) (initial_state ∅)) =
    Raise (UnknownProvider "llama-2") /\
  snd (@ainvoke_die without_sft "llama-2" "simple" tt
         (@SingleImage without_sft 1) (initial_state ∅)) =
    initial_state ∅.
Proof.
  destruct (ainvoke_die_unknown_model without_sft "llama-2" "simple" tt
              (@SingleImage without_sft 1) (initial_state ∅)
              (UnknownProvider "llama-2") eq_refl)
    as (Hfst & Hsnd & _).
  split; [exact Hfst|exact (Hsnd eq_refl)].
Defined.

Lemma ainvoke_die_calls_first_call_witness :
  heap (@ainvoke_die_calls without_sft
          [@Build_die_call without_sft "gpt-4" "simple" tt
             (@SingleImage without_sft 1);
           @Build_die_call without_sft "claude-3" "simple" tt
             (@SingleImage without_sft 2)]
          (initial_state ∅)) =
    [{| sem_value := 5 |}].
Proof.
  exact (proj2 (ainvoke_die_calls_first_call without_sft
                  (@Build_die_call without_sft "gpt-4" "simple" tt
                     (@SingleImage without_sft 1))
                  [@Build_die_call without_sft "claude-3" "simple" tt
                     (@SingleImage without_sft 2)]
                  "openai" ∅ eq_refl)).
Defined.

Lemma log_results_append_witness :
  files (@log_results without_sft
           [{| run_dataset := "ds"; run_model := "m";
               run_method := "simple"; run_anlss := [] |};
            {| run_dataset := "ds"; run_model := "m";
               run_method := "latin";
               run_anlss := [PyFloat.of_decimal 8 (-1);
                             PyFloat.of_decimal 10 (-1)] |}]
           (initial_state ∅)) !! "results.txt" =
    Some (default EmptyString
            (files (@initial_state without_sft ∅) !! "results.txt") +:+
          @result_lines without_sft
            [{| run_dataset := "ds"; run_model := "m";
                run_method := "simple"; run_anlss := [] |};
             {| run_dataset := "ds"; run_model := "m";
                run_method := "latin";
                run_anlss := [PyFloat.of_decimal 8 (-1);
                              PyFloat.of_decimal 10 (-1)] |}]).
Proof.
  apply (proj1 (log_results_append without_sft _ (initial_state ∅))).
  discriminate.
Defined.
